(** * Car Pics API: a shallow embedding of [backend/app/main.py]

    The backend is one FastAPI endpoint, [generate], that refines a user
    prompt with a text model ([refine_user_prompt]), merges the refined
    text into a style template ([build_prompt]) and streams the result
    through an image model ([generate_image_and_text]).

    Modelling choices.
    - A Python [str] is the list of its Unicode code points ([list N]);
      [bytes] is [list byte].
    - Python exceptions are an explicit [result]; every exception of the
      model derives from [Exception], and [HTTPException] is kept apart
      because the endpoint treats it apart.
    - The request context variable and the calls that leave the process
      (client construction, model calls, upload read) are threaded through
      a state-and-exception monad [M]; the calls are logged in order.
    - The provider library, the style file and the upload are parameters of
      the development; nothing is assumed about what they answer.
    - The [traceable] decorators and the scheduling of the coroutine are
      not part of the model. *)

From Stdlib Require Import ZArith NArith List String Ascii Lia Bool.
From Stdlib.Strings Require Import Byte.
From stdpp Require Import base decidable option list gmap.
Import ListNotations.
Local Open Scope N_scope.

(** ** Python strings *)

Abbreviation str := (list N).
Abbreviation bytes := (list byte).

(** A literal of the source, as code points. *)
Definition u (s : string) : str :=
  List.map N_of_ascii (list_ascii_of_string s).

Definition LF : N := 10.

(** [str.isspace] on one code point: the characters [str.strip()] removes. *)
Definition isspace (c : N) : bool :=
  ((9 <=? c) && (c <=? 13)) || ((28 <=? c) && (c <=? 32))
  || (c =? 133) || (c =? 160) || (c =? 5760)
  || ((8192 <=? c) && (c <=? 8202))
  || (c =? 8232) || (c =? 8233) || (c =? 8239) || (c =? 8287)
  || (c =? 12288).

Fixpoint lstrip (s : str) : str :=
  match s with
  | [] => []
  | c :: s' => if isspace c then lstrip s' else s
  end.

Definition rstrip (s : str) : str := rev (lstrip (rev s)).

(** [s.strip()] *)
Definition strip (s : str) : str := rstrip (lstrip s).

(** Truth value of a string: non-empty. *)
Definition truthy (s : str) : bool :=
  match s with [] => false | _ :: _ => true end.

(** [a or b] on strings. *)
Definition str_or (a b : str) : str := if truthy a then a else b.

(** [a or b] where [a] may be [None]. *)
Definition opt_or (a : option str) (b : str) : str :=
  match a with
  | Some s => str_or s b
  | None => b
  end.

(** [s.startswith(p)] *)
Fixpoint startswith (s p : str) : bool :=
  match p, s with
  | [], _ => true
  | _ :: _, [] => false
  | a :: p', b :: s' => (a =? b) && startswith s' p'
  end.

(** [x in s]: [x] occurs in [s] as a contiguous substring. *)
Definition contains (s x : str) : Prop := exists l r, s = l ++ x ++ r.

Fixpoint containsb (s x : str) : bool :=
  startswith s x || match s with [] => false | _ :: s' => containsb s' x end.

(** ** Exceptions *)

Inductive exn :=
| HTTPException (status_code : Z) (detail : str)
| Exception (msg : str).

Inductive result (A : Type) :=
| Ok (a : A)
| Raise (e : exn).
Arguments Ok {A} a.
Arguments Raise {A} e.

(** What a call into a library outside the repository does: it returns, or
    it raises an error, of which only [str(e)] is ever looked at. *)
Inductive ext (A : Type) :=
| Returns (a : A)
| Fails (msg : str).
Arguments Returns {A} a.
Arguments Fails {A} msg.

Definition of_ext {A} (x : ext A) : result A :=
  match x with
  | Returns a => Ok a
  | Fails msg => Raise (Exception msg)
  end.

(** [try: body / except Exception: handler] on pure code. *)
Definition try_except_pure {A} (body : result A) (handler : exn -> result A) : result A :=
  match body with
  | Ok a => Ok a
  | Raise e => handler e
  end.

(** ** [str.format(user_prompt=...)]

    The call of [build_prompt] passes one keyword argument and no
    positional one.  Literal text, the escapes [{{] and [}}] and
    replacement fields that hold a bare name are modelled here.  A field
    that uses a conversion ([!]), a format specification ([:]) or an
    attribute or index access ([.], [[]) is left to [format_extended]. *)

Definition lbrace : N := 123.
Definition rbrace : N := 125.

Definition field_is_extended (c : N) : bool :=
  (c =? 33) || (c =? 58) || (c =? 46) || (c =? 91).

Inductive fmt :=
| Formatted (s : str)
| FormatError (msg : str)
| Extended.

Section Format.
Variable arg : str.

Fixpoint fmt_literal (t out : str) {struct t} : fmt :=
  match t with
  | [] => Formatted out
  | c :: t' =>
      if c =? lbrace then
        match t' with
        | [] => FormatError (u "Single '{' encountered in format string")
        | c' :: t'' =>
            if c' =? lbrace then fmt_literal t'' (out ++ [lbrace])
            else fmt_field t' [] out
        end
      else if c =? rbrace then
        match t' with
        | [] => FormatError (u "Single '}' encountered in format string")
        | c' :: t'' =>
            if c' =? rbrace then fmt_literal t'' (out ++ [rbrace])
            else FormatError (u "Single '}' encountered in format string")
        end
      else fmt_literal t' (out ++ [c])
  end
with fmt_field (t name out : str) {struct t} : fmt :=
  match t with
  | [] => FormatError (u "expected '}' before end of string")
  | c :: t' =>
      if c =? rbrace then
        if bool_decide (name = u "user_prompt")
        then fmt_literal t' (out ++ arg)
        else FormatError name
      else if c =? lbrace then FormatError (u "unexpected '{' in field name")
      else if field_is_extended c then Extended
      else fmt_field t' (name ++ [c]) out
  end.
End Format.

Definition str_format (format_extended : str -> str -> ext str)
    (template user_prompt : str) : result str :=
  match fmt_literal user_prompt template [] with
  | Formatted s => Ok s
  | FormatError msg => Raise (Exception msg)
  | Extended => of_ext (format_extended template user_prompt)
  end.

(** ** The style store and [build_prompt] *)

Section BuildPrompt.
(** [STYLE_MAP], loaded from [prompts.yml] at start-up. *)
Variable STYLE_MAP : gmap str (gmap str str).
Variable format_extended : str -> str -> ext str.

(** [(style_key or "none").strip()] *)
Definition normalise_key (style_key : option str) : str :=
  strip (opt_or style_key (u "none")).

(** [(style.get("template") or "{user_prompt}").strip()] *)
Definition style_template (style : gmap str str) : str :=
  strip (opt_or (style !! u "template") (u "{user_prompt}")).

Definition build_prompt (user_prompt : str) (style_key : option str) : result str :=
  let key := normalise_key style_key in
  match STYLE_MAP !! key with
  | None => Ok (strip user_prompt)
  | Some style =>
      if bool_decide (style = ∅) then Ok (strip user_prompt)
      else
        let template := style_template style in
        try_except_pure
          (str_format format_extended template (strip user_prompt))
          (fun _ => Ok (strip (template ++ [LF; LF] ++ user_prompt)))
  end.
End BuildPrompt.

(** ** Provider data: [google.genai.types] *)

Record Blob := { data : option bytes; mime_type : option str }.

Record Part := { text : option str; inline_data : option Blob }.

Record Content := { role : option str; parts : option (list Part) }.

Record Candidate := { content : option Content }.

(** A response of [generate_content], and a chunk of
    [generate_content_stream].  [response_text] is the [.text] property,
    which the refiner reads under a [try]. *)
Record GenerateContentResponse := {
  candidates : option (list Candidate);
  response_text : ext (option str)
}.

Record GenerateContentConfig := {
  thinking_budget : option Z;
  response_modalities : option (list str)
}.

(** [types.Part.from_text(text=t)] and [types.Part.from_bytes(data=d, mime_type=m)] *)
Definition Part_from_text (t : str) : Part :=
  {| text := Some t; inline_data := None |}.

Definition Part_from_bytes (d : bytes) (m : str) : Part :=
  {| text := None; inline_data := Some {| data := Some d; mime_type := Some m |} |}.

Definition thinking_config : GenerateContentConfig :=
  {| thinking_budget := Some (-1)%Z; response_modalities := None |}.

Definition image_text_config : GenerateContentConfig :=
  {| thinking_budget := None; response_modalities := Some [u "IMAGE"; u "TEXT"] |}.

(** ** [base64.b64encode(...).decode("ascii")] *)

Definition b64char (n : N) : N :=
  if n <? 26 then 65 + n
  else if n <? 52 then 97 + (n - 26)
  else if n <? 62 then 48 + (n - 52)
  else if n =? 62 then 43 else 47.

Definition b64pad : N := 61.

Fixpoint b64encode (bs : bytes) : str :=
  match bs with
  | [] => []
  | [a] =>
      let x := Byte.to_N a in
      [b64char (x / 4); b64char ((x mod 4) * 16); b64pad; b64pad]
  | [a; b] =>
      let x := Byte.to_N a in
      let y := Byte.to_N b in
      [b64char (x / 4); b64char ((x mod 4) * 16 + y / 16);
       b64char ((y mod 16) * 4); b64pad]
  | a :: b :: c :: rest =>
      let x := Byte.to_N a in
      let y := Byte.to_N b in
      let z := Byte.to_N c in
      b64char (x / 4) :: b64char ((x mod 4) * 16 + y / 16)
      :: b64char ((y mod 16) * 4 + z / 64) :: b64char (z mod 64)
      :: b64encode rest
  end.

(** ** Results of the two traced helpers *)

(** One entry of [images_out]. *)
Record image_record := {
  img_mime_type : str;
  img_base64 : str;
  img_data_url : str
}.

(** The dictionary [{"text": ..., "images": ...}]. *)
Record gen_result := {
  out_text : str;
  out_images : list image_record
}.

(** The upload: its declared type and what [await image.read()] does. *)
Record UploadFile := {
  content_type : option str;
  read : ext bytes
}.

Definition MAX_IMAGE_BYTES : Z := (7 * 1024 * 1024)%Z.

(** ** Observable calls *)

Inductive event :=
| CallClient (api_key : str)
| CtxSet
| CtxReset
| CallGenerateContent (model : str) (contents : list Content)
    (config : option GenerateContentConfig)
| CallRead
| CallGenerateContentStream (model : str) (contents : Content)
    (config : GenerateContentConfig).

Definition is_model_call (e : event) : bool :=
  match e with
  | CallGenerateContent _ _ _ | CallGenerateContentStream _ _ _ => true
  | _ => false
  end.

Definition is_text_call (e : event) : bool :=
  match e with CallGenerateContent _ _ _ => true | _ => false end.

Definition is_stream_call (e : event) : bool :=
  match e with CallGenerateContentStream _ _ _ => true | _ => false end.

(** ** The request context and the monad of the handlers *)

Section Backend.
(** [genai.Client] and what the provider answers. *)
Variable Client : Type.
Variable genai_Client : str -> ext Client.
Variable generate_content :
  Client -> str -> list Content -> option GenerateContentConfig ->
  ext GenerateContentResponse.
(** The chunks the stream yields, then the error that ends it, if any. *)
Variable generate_content_stream :
  Client -> str -> Content -> GenerateContentConfig ->
  list GenerateContentResponse * option str.

Variable STYLE_MAP : gmap str (gmap str str).
Variable format_extended : str -> str -> ext str.
Variables TEXT_MODEL_NAME IMAGE_MODEL_NAME : str.

(** [_current_client] is the context variable; [calls] is the log. *)
Record ctx := {
  _current_client : option Client;
  calls : list event
}.

Definition M (A : Type) : Type := ctx -> result A * ctx.

#[local] Instance M_ret : MRet M := fun A a s => (Ok a, s).

#[local] Instance M_bind : MBind M := fun A B f m s =>
  match m s with
  | (Ok a, s') => f a s'
  | (Raise e, s') => (Raise e, s')
  end.

Definition raise {A} (e : exn) : M A := fun s => (Raise e, s).

Definition lift {A} (r : result A) : M A := fun s => (r, s).

(** The context after the calls [evs] have been logged. *)
Definition logged (s : ctx) (evs : list event) : ctx :=
  {| _current_client := _current_client s; calls := calls s ++ evs |}.

Definition emit (e : event) : M unit := fun s => (Ok tt, logged s [e]).

(** [try: body / except Exception as e: handler e] *)
Definition try_except {A} (body : M A) (handler : exn -> M A) : M A := fun s =>
  match body s with
  | (Ok a, s') => (Ok a, s')
  | (Raise e, s') => handler e s'
  end.

(** [try: body / finally: final] *)
Definition try_finally {A} (body : M A) (final : M unit) : M A := fun s =>
  match body s with
  | (r, s') =>
      match final s' with
      | (Ok _, s'') => (r, s'')
      | (Raise e, s'') => (Raise e, s'')
      end
  end.

(** [token = _current_client.set(client)]: the token holds the old value. *)
Definition ctx_set (client : Client) : M (option Client) := fun s =>
  (Ok (_current_client s),
   {| _current_client := Some client; calls := calls s ++ [CtxSet] |}).

(** [_current_client.reset(token)] *)
Definition ctx_reset (token : option Client) : M unit := fun s =>
  (Ok tt, {| _current_client := token; calls := calls s ++ [CtxReset] |}).

Definition _get_client : M Client := fun s =>
  match _current_client s with
  | None => (Raise (Exception (u "No Google GenAI client set in request context")), s)
  | Some cli => (Ok cli, s)
  end.

(** The calls that leave the process. *)
Definition new_Client (api_key : str) : M Client :=
  _ ← emit (CallClient api_key);
  lift (of_ext (genai_Client api_key)).

Definition models_generate_content (client : Client) (model : str)
    (contents : list Content) (config : option GenerateContentConfig)
    : M GenerateContentResponse :=
  _ ← emit (CallGenerateContent model contents config);
  lift (of_ext (generate_content client model contents config)).

Definition image_read (image : UploadFile) : M bytes :=
  _ ← emit CallRead;
  lift (of_ext (read image)).

(** *** [refine_user_prompt] *)

Definition instruction (style_label style_desc : str) (has_image : bool) : str :=
  strip (u "
You are a prompt engineer for photo-style image "
    ++ (if has_image then u "EDITING" else u "GENERATION")
    ++ u ".
Rewrite the user's request as a concise directive (1" ++ [8211] ++ u "3 sentences) optimized for photography.

Requirements:
- Keep the user's intent; don't add new subjects, brands, or people.
- Use concrete camera/lighting/composition terms when relevant (e.g., focal length, aperture, angle, time of day).
- Match this style: " ++ style_label ++ u ". Use this style description as context:
---
" ++ style_desc ++ u "
---
- If an input image is provided, phrase the request as an EDIT (e.g., change background/lighting/ambience) without altering key subject identity.
- Avoid disclaimers, headings, lists, or quotes. Output only the refined directive.
").

Definition refine_contents (user_prompt style_label style_desc : str)
    (has_image : bool) : list Content :=
  [ {| role := Some (u "user");
       parts := Some
         [ Part_from_text (instruction style_label style_desc has_image);
           Part_from_text (u "User request:" ++ [LF] ++ strip user_prompt) ] |} ].

(** [getattr(resp, "text", "") or ""] under [try ... except: refined = ""] *)
Definition primary_text (resp : GenerateContentResponse) : str :=
  match response_text resp with
  | Returns (Some s) => s
  | Returns None => []
  | Fails _ => []
  end.

(** The texts joined by the generator expression over
    [cand.content.parts or []]. *)
Definition join_part_texts (ps : list Part) : str :=
  concat (omap (fun p =>
    match text p with
    | Some s => if truthy s then Some s else None
    | None => None
    end) ps).

(** The body of the second [try]: [resp.candidates[0]], then the join. *)
Definition candidate_text (resp : GenerateContentResponse) : result str :=
  match candidates resp with
  | None => Raise (Exception (u "'NoneType' object is not subscriptable"))
  | Some [] => Raise (Exception (u "list index out of range"))
  | Some (cand :: _) =>
      match content cand with
      | None => Raise (Exception (u "'NoneType' object has no attribute 'parts'"))
      | Some c =>
          Ok (join_part_texts (match parts c with Some ps => ps | None => [] end))
      end
  end.

(** Everything after the model call: the two extraction steps and the
    final [(refined or user_prompt).strip()]. *)
Definition extract_refined (resp : GenerateContentResponse) (user_prompt : str) : str :=
  let refined := primary_text resp in
  let refined :=
    if negb (truthy refined) then
      match candidate_text resp with
      | Ok joined => joined
      | Raise _ => strip user_prompt
      end
    else refined in
  strip (str_or refined user_prompt).

Definition refine_user_prompt (model_name user_prompt style_key style_label
    style_desc : str) (has_image : bool) : M str :=
  let contents := refine_contents user_prompt style_label style_desc has_image in
  client ← _get_client;
  resp ← try_except
    (models_generate_content client model_name contents (Some thinking_config))
    (fun _ => models_generate_content client model_name contents None);
  mret (extract_refined resp user_prompt).

(** *** [generate_image_and_text] *)

(** The record appended for an inline blob with payload [d]. *)
Definition image_of_blob (blob : Blob) (d : bytes) : image_record :=
  let mime := opt_or (mime_type blob) (u "image/png") in
  let b64 := b64encode d in
  {| img_mime_type := mime;
     img_base64 := b64;
     img_data_url := u "data:" ++ mime ++ u ";base64," ++ b64 |}.

(** The body of the [for] loop, on the two accumulators. *)
Definition loop_body (acc : list str * list image_record)
    (chunk : GenerateContentResponse) : list str * list image_record :=
  let '(text_out, images_out) := acc in
  match candidates chunk with
  | Some (cand :: _) =>
      match content cand with
      | Some c =>
          match parts c with
          | Some (part :: _) =>
              match text part with
              | Some (ch :: t) => (text_out ++ [ch :: t], images_out)
              | _ =>
                  match inline_data part with
                  | Some blob =>
                      match data blob with
                      | Some (b :: d) =>
                          (text_out, images_out ++ [image_of_blob blob (b :: d)])
                      | _ => acc
                      end
                  | None => acc
                  end
              end
          | _ => acc
          end
      | None => acc
      end
  | _ => acc
  end.

Definition generate_image_and_text (model_name : str) (ps : list Part) : M gen_result :=
  client ← _get_client;
  let contents := {| role := Some (u "user"); parts := Some ps |} in
  _ ← emit (CallGenerateContentStream model_name contents image_text_config);
  let '(chunks, failure) :=
    generate_content_stream client model_name contents image_text_config in
  let '(text_out, images_out) := fold_left loop_body chunks ([], []) in
  match failure with
  | Some msg => raise (Exception msg)
  | None => mret {| out_text := strip (concat text_out); out_images := images_out |}
  end.

(** *** The endpoint [generate] *)

(** [not s or not s.strip()] *)
Definition blank (s : str) : bool :=
  negb (truthy s) || negb (truthy (strip s)).

(** [style_obj = STYLE_MAP.get(style_key, {})], then
    [style_obj.get("label", style_key)] and
    [(style_obj.get("template") or "").strip()]. *)
Definition style_label_of (style_key : str) : str :=
  let style_obj := default ∅ (STYLE_MAP !! style_key) in
  default style_key (style_obj !! u "label").

Definition style_desc_of (style_key : str) : str :=
  let style_obj := default ∅ (STYLE_MAP !! style_key) in
  strip (opt_or (style_obj !! u "template") []).

(** Step 3 of the endpoint, up to the text part: [parts] holds the
    upload, once its type, payload and size have been checked. *)
Definition image_parts (image : option UploadFile) : M (list Part) :=
  match image with
  | Some img =>
      let ctype := opt_or (content_type img) [] in
      if negb (startswith ctype (u "image/")) then
        raise (HTTPException 400 (u "image must be of type image/*"))
      else
        d ← image_read img;
        match d with
        | [] => raise (HTTPException 400 (u "image file is empty"))
        | _ :: _ =>
            if (Z.of_nat (length d) >? MAX_IMAGE_BYTES)%Z then
              raise (HTTPException 400 (u "image too large (>7MB)"))
            else mret [Part_from_bytes d ctype]
        end
  | None => mret []
  end.

(** The steps under the [try] of the endpoint. *)
Definition generate_body (prompt : str) (image : option UploadFile)
    (style : option str) : M gen_result :=
  let style_key := strip (opt_or style (u "none")) in
  let style_label := style_label_of style_key in
  let style_desc := style_desc_of style_key in
  let has_image := match image with Some _ => true | None => false end in
  refined ← refine_user_prompt TEXT_MODEL_NAME prompt style_key style_label
              style_desc has_image;
  final_prompt ← lift (build_prompt STYLE_MAP format_extended refined (Some style_key));
  ps ← image_parts image;
  let ps := ps ++ [Part_from_text final_prompt] in
  gen_result ← generate_image_and_text IMAGE_MODEL_NAME ps;
  mret {| out_text := out_text gen_result; out_images := out_images gen_result |}.

(** [except HTTPException: raise] and
    [except Exception as e: raise HTTPException(500, ...)]. *)
Definition http_handler {A} (e : exn) : M A :=
  match e with
  | HTTPException _ _ => raise e
  | Exception msg => raise (HTTPException 500 (u "Generation failed: " ++ msg))
  end.

Definition generate (prompt : str) (image : option UploadFile)
    (style : option str) (api_key : str) : M gen_result :=
  if blank api_key then raise (HTTPException 400 (u "api_key is required"))
  else if blank prompt then raise (HTTPException 400 (u "prompt is required"))
  else
    client ← try_except (new_Client (strip api_key))
               (fun _ => raise (HTTPException 400 (u "Invalid api_key provided")));
    token ← ctx_set client;
    try_finally
      (try_except (generate_body prompt image style) http_handler)
      (ctx_reset token).

End Backend.

Arguments _current_client {Client} _.
Arguments calls {Client} _.
Arguments logged {Client} s evs.
Arguments raise {Client A} e _.
Arguments lift {Client A} r _.
Arguments emit {Client} e _.
Arguments try_except {Client A} body handler _.
Arguments try_finally {Client A} body final _.
Arguments ctx_set {Client} client _.
Arguments ctx_reset {Client} token _.
Arguments _get_client {Client} _.
Arguments http_handler {Client A} e _.

(** ** A concrete provider, for evaluation *)

Definition no_ext : str -> str -> ext str := fun _ _ => Fails [].

Definition studio_style : gmap str str :=
  {[ u "label" := u "Studio";
     u "template" := u "Studio shot. {user_prompt} Soft light." ]}.

Definition demo_styles : gmap str (gmap str str) :=
  {[ u "studio" := studio_style;
     u "plain" := {[ u "label" := u "Plain"; u "template" := u "Plain backdrop" ]};
     u "bare" := {[ u "label" := u "Bare" ]} ]}.

Definition text_response (t : str) : GenerateContentResponse :=
  {| candidates := Some [ {| content := Some {| role := Some (u "model");
                                                parts := Some [Part_from_text t] |} |} ];
     response_text := Returns (Some t) |}.

Definition empty_response : GenerateContentResponse :=
  {| candidates := None; response_text := Returns None |}.

Definition chunk_of (p : Part) : GenerateContentResponse :=
  {| candidates := Some [ {| content := Some {| role := Some (u "model");
                                                parts := Some [p] |} |} ];
     response_text := Returns (text p) |}.

Definition st0 : ctx unit := {| _current_client := None; calls := [] |}.

Definition demo_stream : list GenerateContentResponse * option str :=
  ([ chunk_of (Part_from_text (u " Here is "));
     empty_response;
     chunk_of (Part_from_bytes [x4d; x61; x6e] (u "image/jpeg"));
     chunk_of (Part_from_text (u "your car. ")) ], None).

Definition st1 : ctx unit := {| _current_client := Some tt; calls := [] |}.

(** A text model that rejects the thinking configuration and answers
    without it. *)
Definition demo_text_model : unit -> str -> list Content ->
    option GenerateContentConfig -> ext GenerateContentResponse :=
  fun _ _ _ cfg =>
    match cfg with
    | Some _ => Fails (u "thinking is not supported")
    | None => Returns (text_response (u " A red car at dusk. "))
    end.

Definition demo_generate :=
  generate unit (fun _ => Returns tt) demo_text_model
    (fun _ _ _ _ => demo_stream)
    demo_styles no_ext (u "text-model") (u "image-model").

(** An upload declared as text, and a text model that is out of quota. *)
Definition text_upload : UploadFile :=
  {| content_type := Some (u "text/plain"); read := Returns [x68; x69] |}.

Definition failing_text_model : unit -> str -> list Content ->
    option GenerateContentConfig -> ext GenerateContentResponse :=
  fun _ _ _ _ => Fails (u "quota exceeded").

Definition demo_generate_out_of_quota :=
  generate unit (fun _ => Returns tt) failing_text_model
    (fun _ _ _ _ => demo_stream)
    demo_styles no_ext (u "text-model") (u "image-model").

(** A provider that refuses every key. *)
Definition demo_generate_bad_key :=
  generate unit (fun _ => Fails (u "malformed key")) demo_text_model
    (fun _ _ _ _ => demo_stream)
    demo_styles no_ext (u "text-model") (u "image-model").

(** ** The specification's words, as definitions *)

(** The text extracted from the model's response: the primary text field,
    else the text fragments of the first candidate's content, else
    nothing. *)
Definition model_text (resp : GenerateContentResponse) : str :=
  if truthy (primary_text resp) then primary_text resp
  else match candidate_text resp with
       | Ok joined => joined
       | Raise _ => []
       end.

(** The first content part of the first candidate of a chunk. *)
Definition first_part (chunk : GenerateContentResponse) : option Part :=
  match candidates chunk with
  | Some (cand :: _) => c ← content cand; ps ← parts c; head ps
  | _ => None
  end.

(** What one part contributes: a text, or else an image record. *)
Inductive fragment :=
| TextFragment (t : str)
| ImageFragment (img : image_record).

Definition spec_image (mime : option str) (payload : bytes) : image_record :=
  let m := match mime with
           | Some (c :: m') => c :: m'
           | _ => u "image/png"
           end in
  {| img_mime_type := m;
     img_base64 := b64encode payload;
     img_data_url := u "data:" ++ m ++ u ";base64," ++ b64encode payload |}.

Definition fragment_of (p : Part) : option fragment :=
  match text p with
  | Some (c :: t) => Some (TextFragment (c :: t))
  | _ =>
      blob ← inline_data p;
      match data blob with
      | Some (b :: d) => Some (ImageFragment (spec_image (mime_type blob) (b :: d)))
      | _ => None
      end
  end.

Definition chunk_fragment (chunk : GenerateContentResponse) : option fragment :=
  first_part chunk ≫= fragment_of.

Definition texts_of (fs : list fragment) : list str :=
  omap (fun f => match f with TextFragment t => Some t | ImageFragment _ => None end) fs.

Definition images_of (fs : list fragment) : list image_record :=
  omap (fun f => match f with ImageFragment i => Some i | TextFragment _ => None end) fs.

(** An upload the endpoint refuses: a declared type outside [image/*], an
    empty payload, or more than [MAX_IMAGE_BYTES] bytes. *)
Definition invalid_image (image : UploadFile) : Prop :=
  startswith (opt_or (content_type image) []) (u "image/") = false
  \/ exists d, read image = Returns d
       /\ (d = [] \/ (Z.of_nat (length d) > MAX_IMAGE_BYTES)%Z).

Definition binds_context (e : event) : Prop := e = CtxSet \/ e = CtxReset.

(** A template text without [{] and [}]. *)
Definition brace_free (s : str) : Prop :=
  forallb (fun c => negb (c =? lbrace) && negb (c =? rbrace)) s = true.

(** [m] leaves the context variable alone and logs only calls in [P]. *)
Definition appends {Client : Type} (P : event -> Prop) {A : Type}
    (m : M Client A) : Prop :=
  forall st, exists evs, snd (m st) = logged st evs /\ Forall P evs.

(** ** Further definitions used in statements *)

(** A style entry whose template is missing or empty. *)
Definition no_template (style : gmap str str) : Prop :=
  style !! u "template" = None \/ style !! u "template" = Some [].

(** Some styles for evaluation: an unknown field, and blanks for a
    template. *)
Definition odd_styles : gmap str (gmap str str) :=
  {[ u "subject" := {[ u "template" := u "Shot of {subject}" ]};
     u "blank" := {[ u "label" := u "Blank"; u "template" := u "   " ]} ]}.

(** What every entry of [images_out] looks like. *)
Definition well_formed_image (img : image_record) : Prop :=
  img_mime_type img <> []
  /\ img_base64 img <> []
  /\ (length (img_base64 img) mod 4 = 0)%nat
  /\ img_data_url img = u "data:" ++ img_mime_type img ++ u ";base64," ++ img_base64 img.

Definition no_client_error : exn :=
  Exception (u "No Google GenAI client set in request context").

(** An error the body of the endpoint can end with: a 400 of its own, or
    the error of a library. *)
Definition benign (e : exn) : Prop :=
  match e with
  | HTTPException code _ => code = 400%Z
  | Exception _ => True
  end.

(** [m] reads nothing of the context but the bound client: from every
    context with the client [cc] it gives the same result and logs the same
    calls, and it ends in no error but a benign one. *)
Definition uniform {Client : Type} {A : Type} (m : M Client A) : Prop :=
  forall cc, exists r evs,
    (forall e, r = Raise e -> benign e)
    /\ forall st, _current_client st = cc -> m st = (r, logged st evs).

(** The two status codes of the endpoint. *)
Definition http_400_or_500 (e : exn) : Prop :=
  exists detail, e = HTTPException 400 detail \/ e = HTTPException 500 detail.

(** The refiner's model call was answered by [resp], at the first attempt
    or at the retry; [revs] are the calls this took. *)
Definition refine_answers {Client : Type}
    (generate_content : Client -> str -> list Content ->
       option GenerateContentConfig -> ext GenerateContentResponse)
    (client : Client) (model : str) (contents : list Content)
    (resp : GenerateContentResponse) (revs : list event) : Prop :=
  (generate_content client model contents (Some thinking_config) = Returns resp
   /\ revs = [CallGenerateContent model contents (Some thinking_config)])
  \/ (exists msg,
        generate_content client model contents (Some thinking_config) = Fails msg
        /\ generate_content client model contents None = Returns resp
        /\ revs = [CallGenerateContent model contents (Some thinking_config);
                   CallGenerateContent model contents None]).

(** No upload, or one that passes the three checks; [ps] is the part it
    gives and [evs] the calls it takes. *)
Definition accepted_upload (image : option UploadFile) (ps : list Part)
    (evs : list event) : Prop :=
  match image with
  | None => ps = [] /\ evs = []
  | Some img =>
      let ctype := opt_or (content_type img) [] in
      startswith ctype (u "image/") = true
      /\ exists d,
           read img = Returns d /\ d <> []
           /\ (Z.of_nat (length d) <= MAX_IMAGE_BYTES)%Z
           /\ ps = [Part_from_bytes d ctype] /\ evs = [CallRead]
  end.

Definition has_upload (image : option UploadFile) : bool :=
  match image with Some _ => true | None => false end.

(** An upload of the right type that can be read, and one whose read
    fails. *)
Definition jpeg_upload : UploadFile :=
  {| content_type := Some (u "image/jpeg"); read := Returns [x4d; x61; x6e] |}.

Definition broken_upload : UploadFile :=
  {| content_type := Some (u "image/png"); read := Fails (u "connection lost") |}.

(** An image model whose stream breaks after one chunk. *)
Definition broken_stream : list GenerateContentResponse * option str :=
  ([chunk_of (Part_from_text (u "Here"))], Some (u "stream reset")).

Definition demo_generate_broken_stream :=
  generate unit (fun _ => Returns tt) demo_text_model
    (fun _ _ _ _ => broken_stream)
    demo_styles no_ext (u "text-model") (u "image-model").

(** The calls of the refiner in the evaluations: the first attempt,
    which [demo_text_model] refuses, and the retry. *)
Definition demo_revs (has_image : bool) : list event :=
  let contents := refine_contents (u "red car")
                    (style_label_of demo_styles (u "studio"))
                    (style_desc_of demo_styles (u "studio")) has_image in
  [CallGenerateContent (u "text-model") contents (Some thinking_config);
   CallGenerateContent (u "text-model") contents None].

(** The three ways [str.format] can go on a template. *)
Inductive fmt_kind := KFormatted | KError | KExtended.

Definition kind_of (f : fmt) : fmt_kind :=
  match f with
  | Formatted _ => KFormatted
  | FormatError _ => KError
  | Extended => KExtended
  end.

(** An empty upload declared as an image. *)
Definition empty_upload : UploadFile :=
  {| content_type := Some (u "image/png"); read := Returns [] |}.

(** * Properties *)

Arguments refine_contents : simpl never.
Arguments instruction : simpl never.

(** Unfolds the monad and the primitive calls, and nothing else. *)
Ltac run_M :=
  cbv beta iota zeta delta
    [mbind M_bind mret M_ret lift emit raise try_except try_finally
     new_Client models_generate_content image_read _get_client
     ctx_set ctx_reset of_ext].


(** ** Strings *)

Lemma lstrip_split (s : str) :
  exists ws, s = ws ++ lstrip s /\ forallb isspace ws = true.
Proof.
  induction s as [|c s [ws [Hs Hws]]]; simpl.
  - exists []. split; reflexivity.
  - destruct (isspace c) eqn:Hc.
    + exists (c :: ws). simpl. rewrite Hc, Hws. split; [congruence | reflexivity].
    + exists []. split; reflexivity.
Qed.

Lemma lstrip_snoc (a : str) (c : N) :
  lstrip (a ++ [c]) =
  match lstrip a with
  | [] => if isspace c then [] else [c]
  | l => l ++ [c]
  end.
Proof.
  induction a as [|x a IH]; simpl.
  - destruct (isspace c); reflexivity.
  - destruct (isspace x); [exact IH | reflexivity].
Qed.

(** [rstrip] read from the left. *)
Lemma rstrip_cons (c : N) (s : str) :
  rstrip (c :: s) =
  match rstrip s with
  | [] => if isspace c then [] else [c]
  | r => c :: r
  end.
Proof.
  unfold rstrip. simpl rev at 2. rewrite lstrip_snoc.
  destruct (lstrip (rev s)) as [|x l] eqn:E.
  - simpl. destruct (isspace c); reflexivity.
  - rewrite rev_app_distr. simpl rev at 1. simpl.
    destruct (rev l ++ [x]) eqn:E'; [|reflexivity].
    destruct (rev l); discriminate.
Qed.

Lemma rstrip_split (s : str) :
  exists ws, s = rstrip s ++ ws /\ forallb isspace ws = true.
Proof.
  induction s as [|c s [ws [Hs Hws]]].
  - exists []. split; reflexivity.
  - rewrite rstrip_cons. destruct (rstrip s) as [|x r] eqn:E.
    + destruct (isspace c) eqn:Hc.
      * exists (c :: ws). simpl in *. rewrite Hc, Hws. split; [congruence | reflexivity].
      * exists ws. simpl in *. split; [congruence | assumption].
    + exists ws. split; [|assumption]. simpl in *. congruence.
Qed.

Lemma strip_split (s : str) :
  exists l r, s = l ++ strip s ++ r
              /\ forallb isspace l = true /\ forallb isspace r = true.
Proof.
  destruct (lstrip_split s) as [l [Hl Hlw]].
  destruct (rstrip_split (lstrip s)) as [r [Hr Hrw]].
  exists l, r. unfold strip. rewrite <- Hr. auto.
Qed.

Lemma contains_strip (s : str) : contains s (strip s).
Proof.
  destruct (strip_split s) as [l [r [H _]]]. exists l, r. exact H.
Qed.

Lemma lstrip_head (s : str) (c : N) (r : str) :
  lstrip s = c :: r -> isspace c = false.
Proof.
  induction s as [|x s IH]; simpl; [discriminate|].
  destruct (isspace x) eqn:Hx; [exact IH|].
  intros H. injection H as -> _. exact Hx.
Qed.

Lemma lstrip_fixed (s : str) :
  match s with [] => True | c :: _ => isspace c = false end -> lstrip s = s.
Proof.
  destruct s as [|c s]; simpl; [reflexivity|]. intros ->. reflexivity.
Qed.

Lemma rstrip_head (s : str) :
  match s with [] => True | c :: _ => isspace c = false end ->
  match rstrip s with [] => True | c :: _ => isspace c = false end.
Proof.
  destruct s as [|c s]; [intros _; exact I|].
  intros Hc. rewrite rstrip_cons.
  destruct (rstrip s); [rewrite Hc|]; exact Hc.
Qed.

Lemma lstrip_idemp (s : str) : lstrip (lstrip s) = lstrip s.
Proof.
  apply lstrip_fixed. destruct (lstrip s) eqn:E; [exact I|].
  eapply lstrip_head; eassumption.
Qed.

Lemma rstrip_idemp (s : str) : rstrip (rstrip s) = rstrip s.
Proof.
  unfold rstrip. rewrite rev_involutive, lstrip_idemp. reflexivity.
Qed.

Lemma strip_idemp (s : str) : strip (strip s) = strip s.
Proof.
  unfold strip.
  rewrite (lstrip_fixed (rstrip (lstrip s))).
  - apply rstrip_idemp.
  - apply rstrip_head. destruct (lstrip s) eqn:E; [exact I|].
    eapply lstrip_head; eassumption.
Qed.

Lemma strip_nil : strip [] = [].
Proof. reflexivity. Qed.

Lemma startswith_spec (s p : str) :
  startswith s p = true <-> exists r, s = p ++ r.
Proof.
  revert s. induction p as [|a p IH]; intros s; simpl.
  - split; [intros _; exists s; reflexivity | destruct s; reflexivity].
  - destruct s as [|b s].
    + split; [discriminate | intros [r Hr]; discriminate].
    + simpl. rewrite andb_true_iff, N.eqb_eq, IH. split.
      * intros [-> [r ->]]. exists r. reflexivity.
      * intros [r Hr]. injection Hr as -> ->. split; [reflexivity | exists r; reflexivity].
Qed.

Lemma containsb_spec (s x : str) : containsb s x = true <-> contains s x.
Proof.
  induction s as [|c s IH].
  - cbn [containsb]. rewrite orb_false_r, startswith_spec. split.
    + intros [r Hr]. exists [], r. exact Hr.
    + intros [l [r H]]. destruct l; [exists r; exact H | discriminate].
  - cbn [containsb]. rewrite orb_true_iff, IH, startswith_spec. split.
    + intros [[r Hr] | [l [r Hr]]].
      * exists [], r. exact Hr.
      * exists (c :: l), r. rewrite Hr. reflexivity.
    + intros [l [r H]]. destruct l as [|c' l].
      * left. exists r. exact H.
      * right. injection H as _ H. exists l, r. exact H.
Qed.

(** ** [str.format] on a template with one placeholder *)

Lemma fmt_literal_brace_free (arg l t out : str) :
  brace_free l ->
  fmt_literal arg (l ++ t) out = fmt_literal arg t (out ++ l).
Proof.
  unfold brace_free. revert out.
  induction l as [|c l IH]; intros out H.
  - rewrite app_nil_r. reflexivity.
  - simpl in H. apply andb_true_iff in H as [Hc Hl].
    apply andb_true_iff in Hc as [Hc1 Hc2].
    apply negb_true_iff in Hc1, Hc2.
    cbn [app fmt_literal]. rewrite Hc1, Hc2, (IH _ Hl), <- app_assoc.
    reflexivity.
Qed.

Lemma fmt_literal_placeholder (arg t out : str) :
  fmt_literal arg (u "{user_prompt}" ++ t) out = fmt_literal arg t (out ++ arg).
Proof. reflexivity. Qed.

Lemma str_format_placeholder fe (l r arg : str) :
  brace_free l -> brace_free r ->
  str_format fe (l ++ u "{user_prompt}" ++ r) arg = Ok (l ++ arg ++ r).
Proof.
  intros Hl Hr. unfold str_format.
  rewrite (fmt_literal_brace_free _ _ _ _ Hl), fmt_literal_placeholder.
  rewrite <- (app_nil_r r) at 1.
  rewrite (fmt_literal_brace_free _ _ _ _ Hr). simpl.
  rewrite <- app_assoc. reflexivity.
Qed.

(** ** [build_prompt] *)

Lemma normalise_key_missing : normalise_key None = u "none".
Proof. reflexivity. Qed.

Lemma normalise_key_empty : normalise_key (Some []) = u "none".
Proof. reflexivity. Qed.

(** C3, as the code has it: when the normalised style key (the key, or
    "none" when it is missing or empty, with surrounding whitespace removed)
    is absent from the style map or maps to an empty entry, [build_prompt]
    returns the text with its leading and trailing whitespace removed. *)
Theorem build_prompt_unknown_style
    (STYLE_MAP : gmap str (gmap str str)) (fe : str -> str -> ext str)
    (user_prompt : str) (style_key : option str) :
  STYLE_MAP !! normalise_key style_key = None
  \/ STYLE_MAP !! normalise_key style_key = Some ∅ ->
  build_prompt STYLE_MAP fe user_prompt style_key = Ok (strip user_prompt).
Proof.
  intros [H | H]; unfold build_prompt; rewrite H; [reflexivity|].
  rewrite bool_decide_eq_true_2; reflexivity.
Qed.

Lemma build_prompt_unknown_style_witness :
  (demo_styles !! normalise_key (Some (u "zzz")) = None
   \/ demo_styles !! normalise_key (Some (u "zzz")) = Some ∅)
  /\ build_prompt demo_styles no_ext (u " red car ") (Some (u "zzz"))
     = Ok (strip (u " red car ")).
Proof.
  split.
  - left. vm_compute. reflexivity.
  - apply (build_prompt_unknown_style demo_styles no_ext (u " red car ") (Some (u "zzz"))).
    left. vm_compute. reflexivity.
Defined.

(** C3 as stated fails: a text with outer whitespace does not come back
    unchanged, and a key that is not in the map is still looked up after
    trimming. *)
Lemma build_prompt_unknown_style_not_unchanged :
  demo_styles !! u "zzz" = None
  /\ build_prompt demo_styles no_ext (u " red car") (Some (u "zzz")) = Ok (u "red car")
  /\ u "red car" <> u " red car"
  /\ demo_styles !! u " studio " = None
  /\ build_prompt demo_styles no_ext (u "red car") (Some (u " studio "))
     = Ok (u "Studio shot. red car Soft light.").
Proof.
  repeat split; try (vm_compute; reflexivity).
  vm_compute. discriminate.
Qed.

(** C4, as the code has it: for a style whose entry is present and whose
    trimmed template is brace-free text around one [{user_prompt}]
    placeholder, [build_prompt] returns the template with the placeholder
    replaced by the trimmed refined text, which the result therefore
    contains. *)
Theorem build_prompt_contains_stripped
    (STYLE_MAP : gmap str (gmap str str)) (fe : str -> str -> ext str)
    (refined : str) (style_key : option str) (style : gmap str str) (l r : str) :
  STYLE_MAP !! normalise_key style_key = Some style ->
  style <> ∅ ->
  style_template style = l ++ u "{user_prompt}" ++ r ->
  brace_free l -> brace_free r ->
  build_prompt STYLE_MAP fe refined style_key = Ok (l ++ strip refined ++ r)
  /\ contains (l ++ strip refined ++ r) (strip refined).
Proof.
  intros Hstyle Hne Htpl Hl Hr. split.
  - unfold build_prompt. rewrite Hstyle.
    rewrite bool_decide_eq_false_2 by exact Hne.
    cbv zeta. rewrite Htpl, (str_format_placeholder fe l r _ Hl Hr). reflexivity.
  - exists l, r. reflexivity.
Qed.

Lemma build_prompt_contains_stripped_witness :
  build_prompt demo_styles no_ext (u "red car" ++ [LF]) (Some (u "studio"))
  = Ok (u "Studio shot. " ++ strip (u "red car" ++ [LF]) ++ u " Soft light.")
  /\ contains (u "Studio shot. " ++ strip (u "red car" ++ [LF]) ++ u " Soft light.")
       (strip (u "red car" ++ [LF])).
Proof.
  apply (build_prompt_contains_stripped demo_styles no_ext (u "red car" ++ [LF])
           (Some (u "studio")) studio_style (u "Studio shot. ") (u " Soft light.")).
  - vm_compute. reflexivity.
  - intros H. apply (f_equal (fun m => m !! u "label")) in H. vm_compute in H. discriminate.
  - vm_compute. reflexivity.
  - vm_compute. reflexivity.
  - vm_compute. reflexivity.
Defined.

(** C4 as stated fails: the refined text is trimmed before it is
    substituted, so a refined text that ends in a newline is not a
    substring of the result; and a template without a placeholder drops
    the refined text. *)
Lemma build_prompt_drops_outer_whitespace :
  (exists final,
     build_prompt demo_styles no_ext (u "red car" ++ [LF]) (Some (u "studio")) = Ok final
     /\ ~ contains final (u "red car" ++ [LF]))
  /\ (exists final,
        build_prompt demo_styles no_ext (u "red car") (Some (u "plain")) = Ok final
        /\ ~ contains final (u "red car")).
Proof.
  split; eexists; (split; [vm_compute; reflexivity|]);
    rewrite <- containsb_spec; vm_compute; discriminate.
Qed.

(** C5, as the code has it: [build_prompt] returns a string on every
    input and never raises; when the substitution into the template
    raises, the string is the trimmed template, a blank line and the
    refined text, with the leading and trailing whitespace of the whole
    removed. *)
Theorem build_prompt_total
    (STYLE_MAP : gmap str (gmap str str)) (fe : str -> str -> ext str)
    (refined : str) (style_key : option str) :
  exists final,
    build_prompt STYLE_MAP fe refined style_key = Ok final
    /\ forall style e,
         STYLE_MAP !! normalise_key style_key = Some style ->
         style <> ∅ ->
         str_format fe (style_template style) (strip refined) = Raise e ->
         final = strip (style_template style ++ [LF; LF] ++ refined).
Proof.
  unfold build_prompt.
  destruct (STYLE_MAP !! normalise_key style_key) as [style|] eqn:Hstyle.
  - destruct (bool_decide (style = ∅)) eqn:Hd.
    + eexists. split; [reflexivity|].
      intros style' e Heq Hne _. injection Heq as <-.
      apply bool_decide_eq_true_1 in Hd. contradiction.
    + cbv zeta.
      destruct (str_format fe (style_template style) (strip refined)) as [s|e0] eqn:Hf;
        simpl; eexists; (split; [reflexivity|]);
        intros style' e Heq _ Hr; injection Heq as <-.
      * rewrite Hf in Hr. discriminate.
      * reflexivity.
  - eexists. split; [reflexivity|]. intros style e Heq. discriminate.
Qed.

(** C5 as stated fails on the shape of the fallback: the whole is
    trimmed, so a refined text that ends in a blank is not in the result as
    it was given (the result is neither of the two plain concatenations,
    and does not contain the text), and for a refined text of blanks the
    result is the template alone. *)
Lemma build_prompt_fallback_is_trimmed :
  str_format no_ext (u "Shot of {subject}") (strip (u "red car "))
  = Raise (Exception (u "subject"))
  /\ build_prompt odd_styles no_ext (u "red car ") (Some (u "subject"))
     = Ok (u "Shot of {subject}" ++ [LF; LF] ++ u "red car")
  /\ u "Shot of {subject}" ++ [LF; LF] ++ u "red car"
     <> u "Shot of {subject}" ++ [LF] ++ u "red car "
  /\ u "Shot of {subject}" ++ [LF; LF] ++ u "red car"
     <> u "Shot of {subject}" ++ [LF; LF] ++ u "red car "
  /\ containsb (u "Shot of {subject}" ++ [LF; LF] ++ u "red car") (u "red car ") = false
  /\ build_prompt odd_styles no_ext (u "  ") (Some (u "subject"))
     = Ok (u "Shot of {subject}").
Proof.
  repeat split; try (vm_compute; reflexivity); vm_compute; discriminate.
Qed.

(** The fallback of [build_prompt] at work: a field the call does not
    supply, and a lone closing brace. *)
Example build_prompt_fallback_unknown_field :
  build_prompt {[ u "x" := {[ u "template" := u "Shot of {subject}" ]} ]} no_ext
    (u "red car ") (Some (u "x"))
  = Ok (u "Shot of {subject}" ++ [LF; LF] ++ u "red car").
Proof. vm_compute. reflexivity. Qed.

Example build_prompt_fallback_lone_brace :
  build_prompt {[ u "x" := {[ u "template" := u "a } b {user_prompt}" ]} ]} no_ext
    (u "red car") (Some (u "x"))
  = Ok (u "a } b {user_prompt}" ++ [LF; LF] ++ u "red car").
Proof. vm_compute. reflexivity. Qed.

(** ** Running the handlers *)

Section BackendFacts.
Context {Client : Type}.
Variable genai_Client : str -> ext Client.
Variable generate_content :
  Client -> str -> list Content -> option GenerateContentConfig ->
  ext GenerateContentResponse.
Variable generate_content_stream :
  Client -> str -> Content -> GenerateContentConfig ->
  list GenerateContentResponse * option str.
Variable STYLE_MAP : gmap str (gmap str str).
Variable format_extended : str -> str -> ext str.
Variables TEXT_MODEL_NAME IMAGE_MODEL_NAME : str.

Implicit Types st : ctx Client.

Lemma logged_nil st : logged st [] = st.
Proof. destruct st. unfold logged. simpl. rewrite app_nil_r. reflexivity. Qed.

Lemma logged_logged st a b : logged (logged st a) b = logged st (a ++ b).
Proof. unfold logged. simpl. rewrite app_assoc. reflexivity. Qed.

Lemma logged_client st evs : _current_client (logged st evs) = _current_client st.
Proof. reflexivity. Qed.

Lemma logged_calls st evs : calls (logged st evs) = calls st ++ evs.
Proof. reflexivity. Qed.

(** What [refine_user_prompt] does once a client is bound, by the
    answers of the text model to the two calls it can make. *)
Lemma refine_run model_name user_prompt style_key style_label style_desc has_image
    st client :
  _current_client st = Some client ->
  let contents := refine_contents user_prompt style_label style_desc has_image in
  let thinking := CallGenerateContent model_name contents (Some thinking_config) in
  let plain := CallGenerateContent model_name contents None in
  refine_user_prompt Client generate_content model_name user_prompt style_key
    style_label style_desc has_image st =
  match generate_content client model_name contents (Some thinking_config) with
  | Returns resp => (Ok (extract_refined resp user_prompt), logged st [thinking])
  | Fails _ =>
      match generate_content client model_name contents None with
      | Returns resp =>
          (Ok (extract_refined resp user_prompt), logged st [thinking; plain])
      | Fails msg => (Raise (Exception msg), logged st [thinking; plain])
      end
  end.
Proof.
  intros Hcli contents thinking plain.
  unfold refine_user_prompt. run_M.
  rewrite Hcli. fold contents.
  destruct (generate_content client model_name contents (Some thinking_config));
    [reflexivity|].
  destruct (generate_content client model_name contents None);
    rewrite logged_logged; reflexivity.
Qed.

Lemma refine_run_unbound model_name user_prompt style_key style_label style_desc
    has_image st :
  _current_client st = None ->
  refine_user_prompt Client generate_content model_name user_prompt style_key
    style_label style_desc has_image st =
  (Raise (Exception (u "No Google GenAI client set in request context")), st).
Proof.
  intros Hcli. unfold refine_user_prompt. run_M.
  rewrite Hcli. reflexivity.
Qed.

End BackendFacts.

(** ** [refine_user_prompt] *)

Lemma extract_refined_model_text (resp : GenerateContentResponse) (user_prompt : str) :
  extract_refined resp user_prompt = strip (str_or (model_text resp) user_prompt).
Proof.
  unfold extract_refined, model_text.
  destruct (truthy (primary_text resp)); simpl; [reflexivity|].
  destruct (candidate_text resp) as [joined|e]; [reflexivity|].
  unfold str_or. simpl.
  destruct (truthy (strip user_prompt)) eqn:E; [apply strip_idemp | reflexivity].
Qed.

(** C2, as the code has it: with a client bound and a prompt that holds a
    non-whitespace character, when the reasoning-mode call, or after its
    failure the retry, answers and the text extracted from the answer is
    empty or holds a non-whitespace character, [refine_user_prompt]
    returns a non-empty string: the extracted text, trimmed, or the
    trimmed prompt when nothing was extracted.  When both calls fail the
    error of the retry is raised. *)
Theorem refine_user_prompt_nonempty {Client : Type}
    (generate_content : Client -> str -> list Content ->
       option GenerateContentConfig -> ext GenerateContentResponse)
    (model_name user_prompt style_key style_label style_desc : str)
    (has_image : bool) (st : ctx Client) (client : Client) :
  _current_client st = Some client ->
  strip user_prompt <> [] ->
  let contents := refine_contents user_prompt style_label style_desc has_image in
  let res := fst (refine_user_prompt Client generate_content model_name user_prompt
                    style_key style_label style_desc has_image st) in
  let answered resp :=
    (model_text resp = [] -> res = Ok (strip user_prompt))
    /\ (strip (model_text resp) <> [] -> res = Ok (strip (model_text resp)))
    /\ (model_text resp = [] \/ strip (model_text resp) <> [] ->
        exists refined, res = Ok refined /\ refined <> []) in
  match generate_content client model_name contents (Some thinking_config) with
  | Returns resp => answered resp
  | Fails _ =>
      match generate_content client model_name contents None with
      | Returns resp => answered resp
      | Fails msg => res = Raise (Exception msg)
      end
  end.
Proof.
  intros Hcli Hprompt contents res answered.
  assert (Hans : forall resp, res = Ok (extract_refined resp user_prompt) ->
                              answered resp).
  { intros resp Hres. rewrite extract_refined_model_text in Hres.
    assert (H1 : model_text resp = [] -> res = Ok (strip user_prompt)).
    { intros Hm. rewrite Hres, Hm. reflexivity. }
    assert (H2 : strip (model_text resp) <> [] -> res = Ok (strip (model_text resp))).
    { intros Hm. rewrite Hres. unfold str_or.
      destruct (model_text resp); [contradiction | reflexivity]. }
    split; [exact H1|]. split; [exact H2|].
    intros [Hm | Hm].
    - exists (strip user_prompt). split; [exact (H1 Hm) | exact Hprompt].
    - exists (strip (model_text resp)). split; [exact (H2 Hm) | exact Hm]. }
  subst res.
  rewrite (refine_run generate_content model_name user_prompt style_key style_label
             style_desc has_image st client Hcli) in *.
  fold contents in Hans |- *.
  destruct (generate_content client model_name contents (Some thinking_config)).
  - apply Hans. reflexivity.
  - destruct (generate_content client model_name contents None).
    + apply Hans. reflexivity.
    + reflexivity.
Qed.

Lemma refine_user_prompt_nonempty_witness :
  exists refined,
    fst (refine_user_prompt unit demo_text_model (u "text-model") (u "red car")
           (u "none") (u "none") [] false st1) = Ok refined
    /\ refined <> [].
Proof.
  pose proof (refine_user_prompt_nonempty demo_text_model (u "text-model")
                (u "red car") (u "none") (u "none") [] false st1 tt) as H.
  cbv zeta in H. simpl demo_text_model in H.
  destruct H as [_ [_ Hne]].
  - reflexivity.
  - vm_compute. discriminate.
  - apply Hne. right. vm_compute. discriminate.
Defined.

(** C2 as stated fails: a prompt of one space is non-empty and comes back
    empty when the model extracts nothing; and when both model calls fail
    the refiner raises instead of returning the prompt. *)
Lemma refine_user_prompt_can_be_empty :
  u " " <> []
  /\ fst (refine_user_prompt unit (fun _ _ _ _ => Returns empty_response)
            (u "text-model") (u " ") (u "none") (u "none") [] false st1) = Ok []
  /\ u "red car" <> []
  /\ fst (refine_user_prompt unit failing_text_model
            (u "text-model") (u "red car") (u "none") (u "none") [] false st1)
     = Raise (Exception (u "quota exceeded")).
Proof.
  repeat split; try (vm_compute; discriminate); vm_compute; reflexivity.
Qed.

(** C6: with a client bound, the refiner first calls the text model with
    the thinking configuration; it calls it a second time, without that
    configuration, exactly when the first call raised, and never a third
    time; when the retry answers, the refiner returns. *)
Theorem refine_retries_once {Client : Type}
    (generate_content : Client -> str -> list Content ->
       option GenerateContentConfig -> ext GenerateContentResponse)
    (model_name user_prompt style_key style_label style_desc : str)
    (has_image : bool) (st : ctx Client) (client : Client) :
  _current_client st = Some client ->
  let contents := refine_contents user_prompt style_label style_desc has_image in
  let thinking := CallGenerateContent model_name contents (Some thinking_config) in
  let plain := CallGenerateContent model_name contents None in
  let '(res, st') := refine_user_prompt Client generate_content model_name
                       user_prompt style_key style_label style_desc has_image st in
  exists evs,
    st' = logged st evs
    /\ match generate_content client model_name contents (Some thinking_config) with
       | Returns resp =>
           evs = [thinking] /\ res = Ok (extract_refined resp user_prompt)
       | Fails _ =>
           evs = [thinking; plain]
           /\ match generate_content client model_name contents None with
              | Returns resp => res = Ok (extract_refined resp user_prompt)
              | Fails msg => res = Raise (Exception msg)
              end
       end.
Proof.
  intros Hcli contents thinking plain.
  rewrite (refine_run generate_content model_name user_prompt style_key style_label
             style_desc has_image st client Hcli).
  fold contents. fold thinking. fold plain.
  destruct (generate_content client model_name contents (Some thinking_config)).
  - exists [thinking]. auto.
  - destruct (generate_content client model_name contents None);
      exists [thinking; plain]; auto.
Qed.

Lemma refine_retries_once_witness :
  fst (refine_user_prompt unit demo_text_model (u "text-model") (u "red car")
         (u "none") (u "none") [] false st1) = Ok (u "A red car at dusk.")
  /\ List.map is_text_call
       (calls (snd (refine_user_prompt unit demo_text_model (u "text-model")
                      (u "red car") (u "none") (u "none") [] false st1)))
     = [true; true].
Proof.
  pose proof (refine_retries_once demo_text_model (u "text-model")
                (u "red car") (u "none") (u "none") [] false st1 tt eq_refl) as H.
  cbv zeta in H.
  destruct (refine_user_prompt unit demo_text_model (u "text-model") (u "red car")
              (u "none") (u "none") [] false st1) as [res st'].
  destruct H as [evs [Hst H]]. simpl demo_text_model in H.
  destruct H as [Hevs Hres]. subst. split; vm_compute; reflexivity.
Defined.

(** ** [generate_image_and_text] *)

(** One turn of the loop, read through [chunk_fragment]. *)
Lemma loop_body_fragment (text_out : list str) (images_out : list image_record)
    (chunk : GenerateContentResponse) :
  loop_body (text_out, images_out) chunk =
  match chunk_fragment chunk with
  | Some (TextFragment t) => (text_out ++ [t], images_out)
  | Some (ImageFragment img) => (text_out, images_out ++ [img])
  | None => (text_out, images_out)
  end.
Proof.
  unfold loop_body, chunk_fragment, first_part.
  destruct (candidates chunk) as [[|cand cands]|]; try reflexivity.
  destruct (content cand) as [c|]; try reflexivity. simpl.
  destruct (parts c) as [[|part ps]|]; try reflexivity.
  simpl. unfold fragment_of.
  destruct (text part) as [[|ch t]|]; try reflexivity;
    destruct (inline_data part) as [blob|]; try reflexivity;
    simpl; destruct (data blob) as [[|b d]|]; try reflexivity;
    unfold image_of_blob, spec_image, opt_or, str_or;
    destruct (mime_type blob) as [[|m ms]|]; reflexivity.
Qed.

Lemma loop_fold (chunks : list GenerateContentResponse) (text_out : list str)
    (images_out : list image_record) :
  fold_left loop_body chunks (text_out, images_out) =
  (text_out ++ texts_of (omap chunk_fragment chunks),
   images_out ++ images_of (omap chunk_fragment chunks)).
Proof.
  revert text_out images_out.
  induction chunks as [|chunk chunks IH]; intros text_out images_out.
  - simpl. rewrite !app_nil_r. reflexivity.
  - cbn [fold_left omap list_omap]. rewrite loop_body_fragment.
    destruct (chunk_fragment chunk) as [[t|img]|]; rewrite IH.
    + cbn [texts_of images_of omap list_omap]. rewrite <- app_assoc. reflexivity.
    + cbn [texts_of images_of omap list_omap]. rewrite <- app_assoc. reflexivity.
    + reflexivity.
Qed.

Lemma generate_image_and_text_run {Client : Type}
    (generate_content_stream : Client -> str -> Content -> GenerateContentConfig ->
       list GenerateContentResponse * option str)
    (model_name : str) (ps : list Part) (st : ctx Client) (client : Client) :
  _current_client st = Some client ->
  let contents := {| role := Some (u "user"); parts := Some ps |} in
  generate_image_and_text Client generate_content_stream model_name ps st =
  (match snd (generate_content_stream client model_name contents image_text_config) with
   | Some msg => Raise (Exception msg)
   | None =>
       let fs := omap chunk_fragment
                   (fst (generate_content_stream client model_name contents
                           image_text_config)) in
       Ok {| out_text := strip (concat (texts_of fs)); out_images := images_of fs |}
   end,
   logged st [CallGenerateContentStream model_name contents image_text_config]).
Proof.
  intros Hcli contents. unfold generate_image_and_text. run_M.
  rewrite Hcli. fold contents.
  destruct (generate_content_stream client model_name contents image_text_config)
    as [chunks failure].
  rewrite loop_fold. simpl. destruct failure; reflexivity.
Qed.

(** C7: when the stream ends without an error, the generator returns what
    the first part of the first candidate of each chunk contributes, and
    nothing else: the texts, concatenated and trimmed, and the image
    records (mime type or "image/png", base64 payload, data URL) in the
    order of arrival. *)
Theorem generate_image_and_text_collects {Client : Type}
    (generate_content_stream : Client -> str -> Content -> GenerateContentConfig ->
       list GenerateContentResponse * option str)
    (model_name : str) (ps : list Part) (st : ctx Client) (client : Client)
    (chunks : list GenerateContentResponse) :
  _current_client st = Some client ->
  generate_content_stream client model_name
    {| role := Some (u "user"); parts := Some ps |} image_text_config
  = (chunks, None) ->
  let fs := omap (fun chunk => first_part chunk ≫= fragment_of) chunks in
  fst (generate_image_and_text Client generate_content_stream model_name ps st)
  = Ok {| out_text := strip (concat (texts_of fs)); out_images := images_of fs |}.
Proof.
  intros Hcli Hstream fs.
  rewrite (generate_image_and_text_run generate_content_stream model_name ps st
             client Hcli).
  cbv zeta. rewrite Hstream. reflexivity.
Qed.

Lemma generate_image_and_text_collects_witness :
  fst (generate_image_and_text unit (fun _ _ _ _ => demo_stream) (u "image-model")
         [Part_from_text (u "red car")] st1)
  = Ok {| out_text := u "Here is your car.";
          out_images := [ {| img_mime_type := u "image/jpeg";
                             img_base64 := u "TWFu";
                             img_data_url := u "data:image/jpeg;base64,TWFu" |} ] |}.
Proof.
  rewrite (generate_image_and_text_collects (fun _ _ _ _ => demo_stream)
             (u "image-model") [Part_from_text (u "red car")] st1 tt
             (fst demo_stream) eq_refl eq_refl).
  vm_compute. reflexivity.
Defined.

(** C10: one chunk appends to at most one accumulator; a first part with
    a non-empty text is recorded as text only, whatever inline data it
    carries; a chunk without candidates, content or parts leaves both
    accumulators as they are. *)
Theorem loop_body_one_accumulator (text_out : list str)
    (images_out : list image_record) (chunk : GenerateContentResponse) :
  let '(text_out', images_out') := loop_body (text_out, images_out) chunk in
  ((exists t, text_out' = text_out ++ [t] /\ images_out' = images_out)
   \/ (exists img, text_out' = text_out /\ images_out' = images_out ++ [img])
   \/ (text_out' = text_out /\ images_out' = images_out))
  /\ (forall cand cands c part ps t,
        candidates chunk = Some (cand :: cands) ->
        content cand = Some c ->
        parts c = Some (part :: ps) ->
        text part = Some t -> t <> [] ->
        text_out' = text_out ++ [t] /\ images_out' = images_out)
  /\ (candidates chunk = None \/ candidates chunk = Some []
      \/ (exists cand cands, candidates chunk = Some (cand :: cands)
            /\ (content cand = None
                \/ exists c, content cand = Some c
                     /\ (parts c = None \/ parts c = Some []))) ->
      text_out' = text_out /\ images_out' = images_out).
Proof.
  destruct (loop_body (text_out, images_out) chunk) as [text_out' images_out'] eqn:E.
  split; [|split].
  - rewrite loop_body_fragment in E.
    destruct (chunk_fragment chunk) as [[t|img]|]; injection E as <- <-.
    + left. exists t. auto.
    + right. left. exists img. auto.
    + right. right. auto.
  - intros cand cands c part ps t Hc Hcont Hparts Ht Hne.
    unfold loop_body in E. rewrite Hc, Hcont, Hparts, Ht in E.
    destruct t as [|ch t]; [contradiction|]. injection E as <- <-. auto.
  - unfold loop_body in E.
    intros [Hc | [Hc | [cand [cands [Hc [Hcont | [c [Hcont [Hp | Hp]]]]]]]]];
      rewrite Hc in E; try rewrite Hcont in E; try rewrite Hp in E;
      injection E as <- <-; auto.
Qed.

(** A part that carries both a text and inline data. *)
Example loop_body_text_wins :
  loop_body ([], [])
    (chunk_of {| text := Some (u "caption");
                 inline_data := Some {| data := Some [x4d]; mime_type := None |} |})
  = ([u "caption"], []).
Proof. reflexivity. Qed.

Example loop_body_default_mime :
  loop_body ([], [])
    (chunk_of {| text := None;
                 inline_data := Some {| data := Some [x4d; x61]; mime_type := None |} |})
  = ([], [ {| img_mime_type := u "image/png"; img_base64 := u "TWE=";
              img_data_url := u "data:image/png;base64,TWE=" |} ]).
Proof. vm_compute. reflexivity. Qed.

(** ** The endpoint [generate] *)

Lemma blank_spec (s : str) : blank s = true <-> strip s = [].
Proof.
  unfold blank. destruct s as [|c s]; [split; reflexivity|].
  simpl truthy at 1. simpl negb at 1. rewrite orb_false_l.
  destruct (strip (c :: s)); simpl; split; congruence.
Qed.

Lemma blank_false (s : str) : strip s <> [] -> blank s = false.
Proof.
  intros H. destruct (blank s) eqn:E; [|reflexivity].
  apply blank_spec in E. contradiction.
Qed.

Section Frames.
Context {Client : Type}.
Variable P : event -> Prop.

Lemma appends_nothing {A} (m : M Client A) :
  (forall st, snd (m st) = st) -> appends P m.
Proof.
  intros H st. exists []. rewrite H, logged_nil. split; [reflexivity | constructor].
Qed.

Lemma appends_raise {A} (e : exn) : appends P (raise (Client := Client) (A := A) e).
Proof. apply appends_nothing. reflexivity. Qed.

Lemma appends_lift {A} (r : result A) : appends P (lift (Client := Client) r).
Proof. apply appends_nothing. reflexivity. Qed.

Lemma appends_ret {A} (a : A) : appends P (M_ret Client A a).
Proof. apply appends_nothing. reflexivity. Qed.

Lemma appends_get_client : appends P (_get_client (Client := Client)).
Proof.
  apply appends_nothing. intros st. unfold _get_client.
  destruct (_current_client st); reflexivity.
Qed.

Lemma appends_emit (e : event) : P e -> appends P (emit (Client := Client) e).
Proof.
  intros He st. exists [e]. split; [reflexivity|]. constructor; [exact He | constructor].
Qed.

Lemma appends_bind {A B} (m : M Client A) (f : A -> M Client B) :
  appends P m -> (forall a, appends P (f a)) -> appends P (M_bind Client A B f m).
Proof.
  intros Hm Hf st. unfold M_bind.
  destruct (Hm st) as [evs [Hst Hevs]].
  destruct (m st) as [[a|e] st']; simpl in Hst; subst st'.
  - destruct (Hf a (logged st evs)) as [evs' [Hst' Hevs']].
    exists (evs ++ evs'). rewrite Hst', logged_logged.
    split; [reflexivity | apply Forall_app; auto].
  - exists evs. auto.
Qed.

Lemma appends_try_except {A} (body : M Client A) (handler : exn -> M Client A) :
  appends P body -> (forall e, appends P (handler e)) -> appends P (try_except body handler).
Proof.
  intros Hm Hh st. unfold try_except.
  destruct (Hm st) as [evs [Hst Hevs]].
  destruct (body st) as [[a|e] st']; simpl in Hst; subst st'.
  - exists evs. auto.
  - destruct (Hh e (logged st evs)) as [evs' [Hst' Hevs']].
    exists (evs ++ evs'). rewrite Hst', logged_logged.
    split; [reflexivity | apply Forall_app; auto].
Qed.

Lemma appends_http_handler {A} (e : exn) : appends P (http_handler (Client := Client) (A := A) e).
Proof. destruct e; apply appends_raise. Qed.
End Frames.

Section EndpointFacts.
Context {Client : Type}.
Variable genai_Client : str -> ext Client.
Variable generate_content :
  Client -> str -> list Content -> option GenerateContentConfig ->
  ext GenerateContentResponse.
Variable generate_content_stream :
  Client -> str -> Content -> GenerateContentConfig ->
  list GenerateContentResponse * option str.
Variable STYLE_MAP : gmap str (gmap str str).
Variable format_extended : str -> str -> ext str.
Variables TEXT_MODEL_NAME IMAGE_MODEL_NAME : str.
Variable P : event -> Prop.
Hypothesis P_calls : forall e, is_model_call e = true \/ e = CallRead -> P e.

Lemma appends_refine model_name user_prompt style_key style_label style_desc has_image :
  appends P (refine_user_prompt Client generate_content model_name user_prompt
               style_key style_label style_desc has_image).
Proof.
  unfold refine_user_prompt.
  apply appends_bind; [apply appends_get_client|]. intros client.
  apply appends_bind; [|intros resp; apply appends_ret].
  apply appends_try_except; [|intros _];
    (apply appends_bind; [apply appends_emit, P_calls; left; reflexivity
                         | intros _; apply appends_lift]).
Qed.

Lemma appends_generate_image_and_text model_name ps :
  appends P (generate_image_and_text Client generate_content_stream model_name ps).
Proof.
  unfold generate_image_and_text.
  apply appends_bind; [apply appends_get_client|]. intros client.
  apply appends_bind; [apply appends_emit, P_calls; left; reflexivity|]. intros _.
  destruct (generate_content_stream client model_name _ image_text_config)
    as [chunks failure].
  destruct (fold_left loop_body chunks ([], [])) as [text_out images_out].
  destruct failure; [apply appends_raise | apply appends_ret].
Qed.

Lemma appends_image_parts image : appends P (image_parts Client image).
Proof.
  unfold image_parts.
  destruct image as [img|]; [|apply appends_ret]. cbv zeta.
  destruct (negb (startswith _ _)); [apply appends_raise|].
  apply appends_bind.
  - unfold image_read.
    apply appends_bind; [apply appends_emit, P_calls; right; reflexivity
                        | intros _; apply appends_lift].
  - intros [|b d]; [apply appends_raise|].
    destruct (_ >? _)%Z; [apply appends_raise | apply appends_ret].
Qed.

Lemma appends_generate_body prompt image style :
  appends P (generate_body Client generate_content generate_content_stream
               STYLE_MAP format_extended TEXT_MODEL_NAME IMAGE_MODEL_NAME
               prompt image style).
Proof.
  unfold generate_body. cbv zeta.
  apply appends_bind; [apply appends_refine|]. intros refined.
  apply appends_bind; [apply appends_lift|]. intros final_prompt.
  apply appends_bind; [apply appends_image_parts|]. intros ps.
  apply appends_bind; [apply appends_generate_image_and_text|].
  intros g. apply appends_ret.
Qed.

Lemma build_prompt_returns refined style_key :
  exists final, build_prompt STYLE_MAP format_extended refined style_key = Ok final.
Proof.
  unfold build_prompt.
  destruct (STYLE_MAP !! normalise_key style_key) as [style|]; [|eauto].
  destruct (bool_decide (style = ∅)); [eauto|]. cbv zeta.
  destruct (str_format format_extended (style_template style) (strip refined));
    simpl; eauto.
Qed.

Local Abbreviation run_generate :=
  (generate Client genai_Client generate_content generate_content_stream
     STYLE_MAP format_extended TEXT_MODEL_NAME IMAGE_MODEL_NAME).
Local Abbreviation run_body :=
  (generate_body Client generate_content generate_content_stream
     STYLE_MAP format_extended TEXT_MODEL_NAME IMAGE_MODEL_NAME).

Lemma generate_blank_key prompt image style api_key (st : ctx Client) :
  blank api_key = true ->
  run_generate prompt image style api_key st
  = (Raise (HTTPException 400 (u "api_key is required")), st).
Proof. intros H. unfold generate. rewrite H. reflexivity. Qed.

Lemma generate_blank_prompt prompt image style api_key (st : ctx Client) :
  blank api_key = false -> blank prompt = true ->
  run_generate prompt image style api_key st
  = (Raise (HTTPException 400 (u "prompt is required")), st).
Proof. intros H1 H2. unfold generate. rewrite H1, H2. reflexivity. Qed.

Lemma generate_bad_client prompt image style api_key (st : ctx Client) msg :
  blank api_key = false -> blank prompt = false ->
  genai_Client (strip api_key) = Fails msg ->
  run_generate prompt image style api_key st
  = (Raise (HTTPException 400 (u "Invalid api_key provided")),
     logged st [CallClient (strip api_key)]).
Proof.
  intros H1 H2 Hc. unfold generate. rewrite H1, H2. run_M. rewrite Hc. reflexivity.
Qed.

(** The endpoint once the client is built: bind, run the body, map its
    error, reset. *)
Lemma generate_run prompt image style api_key (st : ctx Client) client :
  blank api_key = false -> blank prompt = false ->
  genai_Client (strip api_key) = Returns client ->
  run_generate prompt image style api_key st =
  let bound := {| _current_client := Some client;
                  calls := calls st ++ [CallClient (strip api_key); CtxSet] |} in
  let '(r, st') := run_body prompt image style bound in
  (match r with
   | Ok a => Ok a
   | Raise (HTTPException code detail) => Raise (HTTPException code detail)
   | Raise (Exception msg) =>
       Raise (HTTPException 500 (u "Generation failed: " ++ msg))
   end,
   {| _current_client := _current_client st; calls := calls st' ++ [CtxReset] |}).
Proof.
  intros H1 H2 Hc. unfold generate. rewrite H1, H2. run_M. rewrite Hc.
  unfold logged. simpl. rewrite <- app_assoc. simpl.
  destruct (run_body prompt image style _) as [[a|[code detail|msg]] st'];
    reflexivity.
Qed.

(** An upload that is refused is refused with a 400, after at most the
    read of its payload. *)
Lemma image_parts_invalid image (st : ctx Client) :
  invalid_image image ->
  exists detail evs,
    image_parts Client (Some image) st
    = (Raise (HTTPException 400 detail), logged st evs)
    /\ (evs = [] \/ evs = [CallRead]).
Proof.
  intros Hinv. unfold image_parts. cbv zeta.
  destruct (negb (startswith (opt_or (content_type image) []) (u "image/"))) eqn:E.
  - exists (u "image must be of type image/*"), [].
    rewrite logged_nil. auto.
  - destruct Hinv as [Hmime | [d [Hread Hd]]].
    + rewrite Hmime in E. discriminate.
    + run_M. rewrite Hread. destruct Hd as [-> | Hlen].
      * exists (u "image file is empty"), [CallRead]. auto.
      * destruct d as [|b d]; [simpl in Hlen; unfold MAX_IMAGE_BYTES in Hlen; lia|].
        apply Z.gtb_gt in Hlen. rewrite Hlen.
        exists (u "image too large (>7MB)"), [CallRead]. auto.
Qed.

Lemma M_bind_run {A B} (f : A -> M Client B) (m : M Client A) (st : ctx Client) :
  M_bind Client A B f m st =
  match m st with
  | (Ok a, st') => f a st'
  | (Raise e, st') => (Raise e, st')
  end.
Proof. reflexivity. Qed.

(** The body on an upload that is refused. *)
Lemma generate_body_invalid_image prompt image style (st : ctx Client) client :
  _current_client st = Some client ->
  invalid_image image ->
  let style_key := strip (opt_or style (u "none")) in
  let contents := refine_contents prompt (style_label_of STYLE_MAP style_key)
                    (style_desc_of STYLE_MAP style_key) true in
  let thinking := CallGenerateContent TEXT_MODEL_NAME contents (Some thinking_config) in
  exists res evs,
    run_body prompt (Some image) style st = (res, logged st (thinking :: evs))
    /\ forallb (fun e => negb (is_stream_call e)) evs = true
    /\ match generate_content client TEXT_MODEL_NAME contents (Some thinking_config) with
       | Returns _ => exists detail, res = Raise (HTTPException 400 detail)
       | Fails _ =>
           match generate_content client TEXT_MODEL_NAME contents None with
           | Returns _ => exists detail, res = Raise (HTTPException 400 detail)
           | Fails msg => res = Raise (Exception msg)
           end
       end.
Proof.
  intros Hcli Hinv style_key contents thinking.
  assert (Hrest : forall refined pre (k : str -> list Part -> M Client gen_result),
    forallb (fun e => negb (is_stream_call e)) pre = true ->
    exists res evs,
      M_bind Client _ _
        (fun final_prompt => M_bind Client _ _ (k final_prompt)
                               (image_parts Client (Some image)))
        (lift (build_prompt STYLE_MAP format_extended refined (Some style_key)))
        (logged st (thinking :: pre))
      = (res, logged st (thinking :: evs))
      /\ forallb (fun e => negb (is_stream_call e)) evs = true
      /\ exists detail, res = Raise (HTTPException 400 detail)).
  { intros refined pre k Hpre.
    destruct (build_prompt_returns refined (Some style_key)) as [final Hfinal].
    destruct (image_parts_invalid image (logged st (thinking :: pre)) Hinv)
      as [detail [evs [Himg Hevs]]].
    rewrite M_bind_run. unfold lift. rewrite Hfinal, M_bind_run, Himg, logged_logged.
    exists (Raise (HTTPException 400 detail)), (pre ++ evs).
    split; [reflexivity|]. split; [|eauto].
    rewrite forallb_app, Hpre. destruct Hevs as [-> | ->]; reflexivity. }
  unfold generate_body. cbv zeta. unfold mbind. rewrite M_bind_run.
  rewrite (refine_run generate_content TEXT_MODEL_NAME prompt style_key _ _ true
             st client Hcli).
  fold style_key. fold contents. fold thinking.
  destruct (generate_content client TEXT_MODEL_NAME contents (Some thinking_config))
    as [resp|msg1].
  - apply (Hrest (extract_refined resp prompt) []). reflexivity.
  - destruct (generate_content client TEXT_MODEL_NAME contents None) as [resp|msg2].
    + apply (Hrest (extract_refined resp prompt)
               [CallGenerateContent TEXT_MODEL_NAME contents None]). reflexivity.
    + exists (Raise (Exception msg2)),
        [CallGenerateContent TEXT_MODEL_NAME contents None]. auto.
Qed.
End EndpointFacts.

Section Endpoint.
Context {Client : Type}.
Variable genai_Client : str -> ext Client.
Variable generate_content :
  Client -> str -> list Content -> option GenerateContentConfig ->
  ext GenerateContentResponse.
Variable generate_content_stream :
  Client -> str -> Content -> GenerateContentConfig ->
  list GenerateContentResponse * option str.
Variable STYLE_MAP : gmap str (gmap str str).
Variable format_extended : str -> str -> ext str.
Variables TEXT_MODEL_NAME IMAGE_MODEL_NAME : str.

Local Abbreviation run_generate :=
  (generate Client genai_Client generate_content generate_content_stream
     STYLE_MAP format_extended TEXT_MODEL_NAME IMAGE_MODEL_NAME).

(** C1, as the code has it: on a request with a refused upload, a
    non-blank credential and prompt and a client that could be built,
    the refiner runs first (its reasoning-mode call is logged right after
    the client is bound), the image model is never called, and the
    request is rejected with a 400 when the refiner returns, with a 500
    when both of its model calls fail. *)
Theorem generate_invalid_image (prompt : str) (image : UploadFile)
    (style : option str) (api_key : str) (st : ctx Client) (client : Client) :
  strip api_key <> [] ->
  strip prompt <> [] ->
  genai_Client (strip api_key) = Returns client ->
  invalid_image image ->
  let style_key := strip (opt_or style (u "none")) in
  let contents := refine_contents prompt (style_label_of STYLE_MAP style_key)
                    (style_desc_of STYLE_MAP style_key) true in
  let thinking := CallGenerateContent TEXT_MODEL_NAME contents (Some thinking_config) in
  exists res evs,
    run_generate prompt (Some image) style api_key st
    = (res, logged st (CallClient (strip api_key) :: CtxSet :: thinking :: evs))
    /\ forallb (fun e => negb (is_stream_call e)) evs = true
    /\ match generate_content client TEXT_MODEL_NAME contents (Some thinking_config) with
       | Returns _ => exists detail, res = Raise (HTTPException 400 detail)
       | Fails _ =>
           match generate_content client TEXT_MODEL_NAME contents None with
           | Returns _ => exists detail, res = Raise (HTTPException 400 detail)
           | Fails msg =>
               res = Raise (HTTPException 500 (u "Generation failed: " ++ msg))
           end
       end.
Proof.
  intros Hkey Hprompt Hclient Hinv style_key contents thinking.
  rewrite (generate_run genai_Client generate_content generate_content_stream
             STYLE_MAP format_extended TEXT_MODEL_NAME IMAGE_MODEL_NAME
             prompt (Some image) style api_key st client
             (blank_false _ Hkey) (blank_false _ Hprompt) Hclient).
  cbv zeta.
  destruct (generate_body_invalid_image generate_content generate_content_stream
              STYLE_MAP format_extended TEXT_MODEL_NAME IMAGE_MODEL_NAME
              prompt image style
              {| _current_client := Some client;
                 calls := calls st ++ [CallClient (strip api_key); CtxSet] |}
              client eq_refl Hinv) as [res [evs [Hrun [Hevs Hres]]]].
  fold style_key contents thinking in Hrun, Hres.
  rewrite Hrun.
  eexists. exists (evs ++ [CtxReset]). split; [|split].
  - f_equal. unfold logged. simpl. rewrite <- !app_assoc. reflexivity.
  - rewrite forallb_app, Hevs. reflexivity.
  - destruct (generate_content client TEXT_MODEL_NAME contents (Some thinking_config)).
    + destruct Hres as [detail ->]. eauto.
    + destruct (generate_content client TEXT_MODEL_NAME contents None).
      * destruct Hres as [detail ->]. eauto.
      * rewrite Hres. reflexivity.
Qed.

(** C8: a blank credential or a blank prompt is rejected with a 400
    before anything else happens, so that no client is built; and when
    both are given and the client cannot be built from the trimmed
    credential, the request is rejected with the 400 for an invalid
    credential, after that one attempt. *)
Theorem generate_requires_credential_and_prompt (prompt : str)
    (image : option UploadFile) (style : option str) (api_key : str)
    (st : ctx Client) :
  (strip api_key = [] \/ strip prompt = [] ->
   exists detail,
     run_generate prompt image style api_key st
     = (Raise (HTTPException 400 detail), st))
  /\ (forall msg,
        strip api_key <> [] -> strip prompt <> [] ->
        genai_Client (strip api_key) = Fails msg ->
        run_generate prompt image style api_key st
        = (Raise (HTTPException 400 (u "Invalid api_key provided")),
           logged st [CallClient (strip api_key)])).
Proof.
  split.
  - intros H. destruct (blank api_key) eqn:Hk.
    + eexists. apply generate_blank_key. exact Hk.
    + destruct H as [H | H].
      * apply blank_spec in H. congruence.
      * eexists. apply generate_blank_prompt; [exact Hk | apply blank_spec; exact H].
  - intros msg Hk Hp Hc.
    eapply generate_bad_client; eauto using blank_false.
Qed.

(** C9: when [generate] returns or raises, the context variable holds
    the value it held at entry.  Either the request failed before the
    client was bound and the variable was never set, or the variable was
    set once, right after the client was built, and reset once, as the
    last thing the request did. *)
Theorem generate_resets_context (prompt : str) (image : option UploadFile)
    (style : option str) (api_key : str) (st : ctx Client) :
  exists res evs,
    run_generate prompt image style api_key st = (res, logged st evs)
    /\ (Forall (fun e => ~ binds_context e) evs
        \/ exists mid,
             evs = CallClient (strip api_key) :: CtxSet :: mid ++ [CtxReset]
             /\ Forall (fun e => ~ binds_context e) mid).
Proof.
  destruct (blank api_key) eqn:Hk.
  { exists (Raise (HTTPException 400 (u "api_key is required"))), [].
    rewrite logged_nil. split; [apply generate_blank_key; exact Hk | left; constructor]. }
  destruct (blank prompt) eqn:Hp.
  { exists (Raise (HTTPException 400 (u "prompt is required"))), [].
    rewrite logged_nil.
    split; [apply generate_blank_prompt; assumption | left; constructor]. }
  destruct (genai_Client (strip api_key)) as [client|msg] eqn:Hc.
  - rewrite (generate_run genai_Client generate_content generate_content_stream
               STYLE_MAP format_extended TEXT_MODEL_NAME IMAGE_MODEL_NAME
               prompt image style api_key st client Hk Hp Hc).
    cbv zeta.
    destruct (appends_generate_body generate_content generate_content_stream
                STYLE_MAP format_extended TEXT_MODEL_NAME IMAGE_MODEL_NAME
                (fun e => ~ binds_context e)) with
      (prompt := prompt) (image := image) (style := style)
      (st := {| _current_client := Some client;
                calls := calls st ++ [CallClient (strip api_key); CtxSet] |})
      as [mid [Hst Hmid]].
    { intros e [He | ->] [Hb | Hb]; subst; discriminate. }
    destruct (generate_body _ _ _ _ _ _ _ _ _ _ _) as [r st'].
    simpl in Hst. subst st'.
    eexists. exists (CallClient (strip api_key) :: CtxSet :: mid ++ [CtxReset]).
    split.
    + f_equal. unfold logged. simpl. rewrite <- !app_assoc. reflexivity.
    + right. exists mid. auto.
  - exists (Raise (HTTPException 400 (u "Invalid api_key provided"))),
      [CallClient (strip api_key)].
    split; [eapply generate_bad_client; eassumption|].
    left. constructor; [|constructor]. intros [Hb | Hb]; discriminate.
Qed.
End Endpoint.

Lemma generate_invalid_image_witness :
  exists res evs,
    demo_generate (u "red car") (Some text_upload) (Some (u "studio")) (u " key ") st0
    = (res, logged st0 (CallClient (u "key") :: CtxSet :: evs))
    /\ forallb (fun e => negb (is_stream_call e)) evs = true
    /\ exists detail, res = Raise (HTTPException 400 detail).
Proof.
  destruct (generate_invalid_image (fun _ => Returns tt) demo_text_model
              (fun _ _ _ _ => demo_stream) demo_styles no_ext
              (u "text-model") (u "image-model")
              (u "red car") text_upload (Some (u "studio")) (u " key ") st0 tt)
    as [res [evs [Hrun [Hevs Hres]]]].
  - vm_compute. discriminate.
  - vm_compute. discriminate.
  - reflexivity.
  - left. vm_compute. reflexivity.
  - exists res. eexists. split; [exact Hrun|]. split; [exact Hevs | exact Hres].
Defined.

(** C1 as stated fails: the upload is checked after the refiner has run,
    so the text model has been called (twice here) when the 400 is raised;
    and when the text model fails the request ends in a 500. *)
Lemma generate_invalid_image_after_refiner :
  invalid_image text_upload
  /\ fst (demo_generate (u "red car") (Some text_upload) None (u "key") st0)
     = Raise (HTTPException 400 (u "image must be of type image/*"))
  /\ List.map is_model_call
       (calls (snd (demo_generate (u "red car") (Some text_upload) None (u "key") st0)))
     = [false; false; true; true; false]
  /\ fst (demo_generate_out_of_quota (u "red car") (Some text_upload) None (u "key") st0)
     = Raise (HTTPException 500 (u "Generation failed: quota exceeded")).
Proof.
  split; [left; vm_compute; reflexivity|].
  repeat split; vm_compute; reflexivity.
Qed.

Lemma generate_requires_credential_and_prompt_witness :
  (exists detail,
     demo_generate_bad_key (u "red car") None None (u "  ") st0
     = (Raise (HTTPException 400 detail), st0))
  /\ demo_generate_bad_key (u "red car") None None (u " key ") st0
     = (Raise (HTTPException 400 (u "Invalid api_key provided")),
        logged st0 [CallClient (u "key")]).
Proof.
  split.
  - apply (generate_requires_credential_and_prompt (fun _ => Fails (u "malformed key"))
             demo_text_model (fun _ _ _ _ => demo_stream) demo_styles no_ext
             (u "text-model") (u "image-model") (u "red car") None None (u "  ") st0).
    left. vm_compute. reflexivity.
  - apply (generate_requires_credential_and_prompt (fun _ => Fails (u "malformed key"))
             demo_text_model (fun _ _ _ _ => demo_stream) demo_styles no_ext
             (u "text-model") (u "image-model") (u "red car") None None (u " key ") st0)
      with (msg := u "malformed key").
    + vm_compute. discriminate.
    + vm_compute. discriminate.
    + reflexivity.
Defined.

(** The three ways out of a request with a client: success, a 400 from the
    body, a 500 from the body.  Each ends with the reset. *)
Example generate_success_resets :
  List.map is_model_call
    (calls (snd (demo_generate (u "red car") None (Some (u "studio")) (u "key") st0)))
  = [false; false; true; true; true; false]
  /\ last (calls (snd (demo_generate (u "red car") None (Some (u "studio")) (u "key") st0)))
     = Some CtxReset
  /\ fst (demo_generate (u "red car") None (Some (u "studio")) (u "key") st0)
     = Ok {| out_text := u "Here is your car.";
             out_images := [ {| img_mime_type := u "image/jpeg";
                                img_base64 := u "TWFu";
                                img_data_url := u "data:image/jpeg;base64,TWFu" |} ] |}.
Proof. repeat split; vm_compute; reflexivity. Qed.

Example generate_client_error_resets :
  last (calls (snd (demo_generate (u "red car") (Some text_upload) None (u "key") st0)))
  = Some CtxReset.
Proof. vm_compute. reflexivity. Qed.

Example generate_server_error_resets :
  last (calls (snd (demo_generate_out_of_quota (u "red car") None None (u "key") st0)))
  = Some CtxReset
  /\ fst (demo_generate_out_of_quota (u "red car") None None (u "key") st0)
     = Raise (HTTPException 500 (u "Generation failed: quota exceeded")).
Proof. split; vm_compute; reflexivity. Qed.

(** * Further properties of the code *)

(** ** More on strings *)

Lemma lstrip_app (a b : str) :
  lstrip (a ++ b) = match lstrip a with [] => lstrip b | l => l ++ b end.
Proof.
  induction a as [|c a IH]; simpl.
  - destruct (lstrip b); reflexivity.
  - destruct (isspace c); [exact IH | reflexivity].
Qed.

Lemma rstrip_app_nonblank (a b : str) :
  rstrip b <> [] -> rstrip (a ++ b) = a ++ rstrip b.
Proof.
  intros Hb. induction a as [|c a IH]; [reflexivity|].
  simpl app. rewrite rstrip_cons, IH.
  destruct (a ++ rstrip b) eqn:E; [|reflexivity].
  apply app_eq_nil in E as [_ E]. contradiction.
Qed.

Lemma rstrip_of_lstrip (b : str) :
  strip b <> [] -> exists ws, rstrip b = ws ++ strip b.
Proof.
  intros Hb. destruct (lstrip_split b) as [ws [Hws _]].
  exists ws. rewrite Hws at 1. apply rstrip_app_nonblank. exact Hb.
Qed.

Lemma contains_nil (s : str) : contains s [].
Proof. exists [], s. reflexivity. Qed.

Lemma contains_refl (s : str) : contains s s.
Proof. exists [], []. rewrite app_nil_r. reflexivity. Qed.

(** Trimming a concatenation keeps the trimmed second half. *)
Lemma strip_app_contains (a b : str) : contains (strip (a ++ b)) (strip b).
Proof.
  destruct (strip b) as [|x sb] eqn:Hb; [apply contains_nil|].
  assert (Hne : strip b <> []) by (rewrite Hb; discriminate).
  rewrite <- Hb. unfold strip at 1. rewrite lstrip_app.
  destruct (lstrip a) as [|y l] eqn:Ha; [apply contains_refl|].
  destruct (rstrip_of_lstrip b Hne) as [ws Hws].
  rewrite rstrip_app_nonblank by (rewrite Hws; destruct ws; [exact Hne | discriminate]).
  rewrite Hws. exists ((y :: l) ++ ws), [].
  rewrite app_nil_r, app_assoc. reflexivity.
Qed.

Lemma strip_all_space (s : str) : strip s = [] <-> forallb isspace s = true.
Proof.
  split.
  - intros H. destruct (strip_split s) as [l [r [Hs [Hl Hr]]]].
    rewrite H in Hs. simpl in Hs. rewrite Hs, forallb_app, Hl, Hr. reflexivity.
  - intros H. unfold strip.
    assert (Hl : lstrip s = []).
    { induction s as [|c s IH]; [reflexivity|]. simpl in *.
      apply andb_true_iff in H as [Hc Hs]. rewrite Hc. auto. }
    rewrite Hl. reflexivity.
Qed.

(** ** More on [build_prompt] *)

(** X1: a refined prompt goes through [build_prompt] untouched when the
    style is unknown: what the refiner returns is already trimmed. *)
Theorem build_prompt_of_refined_unstyled
    (STYLE_MAP : gmap str (gmap str str)) (fe : str -> str -> ext str)
    (resp : GenerateContentResponse) (user_prompt : str) (style_key : option str) :
  STYLE_MAP !! normalise_key style_key = None
  \/ STYLE_MAP !! normalise_key style_key = Some ∅ ->
  build_prompt STYLE_MAP fe (extract_refined resp user_prompt) style_key
  = Ok (extract_refined resp user_prompt).
Proof.
  intros H.
  assert (Hs : strip (extract_refined resp user_prompt) = extract_refined resp user_prompt).
  { unfold extract_refined. cbv zeta. apply strip_idemp. }
  unfold build_prompt. destruct H as [H | H]; rewrite H.
  - rewrite Hs. reflexivity.
  - rewrite bool_decide_eq_true_2 by reflexivity. rewrite Hs. reflexivity.
Qed.

Lemma build_prompt_of_refined_unstyled_witness :
  build_prompt demo_styles no_ext
    (extract_refined (text_response (u " A red car at dusk. ")) (u "red car")) None
  = Ok (u "A red car at dusk.").
Proof.
  rewrite (build_prompt_of_refined_unstyled demo_styles no_ext
             (text_response (u " A red car at dusk. ")) (u "red car") None).
  - vm_compute. reflexivity.
  - left. vm_compute. reflexivity.
Defined.

(** X2: the style key is read through its trimmed form, and a missing
    or empty key is read as "none". *)
Theorem build_prompt_key_trimmed
    (STYLE_MAP : gmap str (gmap str str)) (fe : str -> str -> ext str)
    (user_prompt key : str) :
  (strip key <> [] ->
   build_prompt STYLE_MAP fe user_prompt (Some key)
   = build_prompt STYLE_MAP fe user_prompt (Some (strip key)))
  /\ build_prompt STYLE_MAP fe user_prompt None
     = build_prompt STYLE_MAP fe user_prompt (Some (u "none"))
  /\ build_prompt STYLE_MAP fe user_prompt (Some [])
     = build_prompt STYLE_MAP fe user_prompt (Some (u "none")).
Proof.
  split; [|split; reflexivity].
  intros Hk. unfold build_prompt.
  assert (Hn : normalise_key (Some key) = normalise_key (Some (strip key))).
  { unfold normalise_key, opt_or, str_or.
    destruct key as [|c key]; [contradiction|]. simpl truthy at 1.
    destruct (strip (c :: key)) eqn:E; [contradiction|].
    simpl truthy. rewrite <- E. symmetry. apply strip_idemp. }
  rewrite Hn. reflexivity.
Qed.

Lemma build_prompt_key_trimmed_witness :
  build_prompt demo_styles no_ext (u "red car") (Some (u "  studio "))
  = build_prompt demo_styles no_ext (u "red car") (Some (u "studio")).
Proof.
  destruct (build_prompt_key_trimmed demo_styles no_ext (u "red car") (u "  studio "))
    as [H _].
  rewrite H; [vm_compute; reflexivity | vm_compute; discriminate].
Defined.

(** X3: a style that is present but has no template, or an empty one,
    falls back on the template "{user_prompt}": the result is the trimmed
    text. *)
Theorem build_prompt_no_template
    (STYLE_MAP : gmap str (gmap str str)) (fe : str -> str -> ext str)
    (user_prompt : str) (style_key : option str) (style : gmap str str) :
  STYLE_MAP !! normalise_key style_key = Some style ->
  no_template style ->
  build_prompt STYLE_MAP fe user_prompt style_key = Ok (strip user_prompt).
Proof.
  intros Hstyle Htpl. unfold build_prompt. rewrite Hstyle.
  destruct (bool_decide (style = ∅)); [reflexivity|]. cbv zeta.
  assert (Ht : style_template style = [] ++ u "{user_prompt}" ++ []).
  { unfold style_template. destruct Htpl as [-> | ->]; reflexivity. }
  rewrite Ht, str_format_placeholder by reflexivity.
  simpl. rewrite app_nil_r. reflexivity.
Qed.

Lemma build_prompt_no_template_witness :
  build_prompt demo_styles no_ext (u " red car ") (Some (u "bare"))
  = Ok (strip (u " red car ")).
Proof.
  apply (build_prompt_no_template demo_styles no_ext (u " red car ") (Some (u "bare"))
           {[ u "label" := u "Bare" ]}).
  - vm_compute. reflexivity.
  - left. vm_compute. reflexivity.
Defined.

(** X4: a template without braces is returned as it is, trimmed: the
    user's text does not reach the final prompt, and a template of blanks
    gives the empty prompt. *)
Theorem build_prompt_brace_free_template
    (STYLE_MAP : gmap str (gmap str str)) (fe : str -> str -> ext str)
    (user_prompt : str) (style_key : option str) (style : gmap str str) :
  STYLE_MAP !! normalise_key style_key = Some style ->
  style <> ∅ ->
  brace_free (style_template style) ->
  build_prompt STYLE_MAP fe user_prompt style_key = Ok (style_template style).
Proof.
  intros Hstyle Hne Hbf. unfold build_prompt. rewrite Hstyle.
  rewrite bool_decide_eq_false_2 by exact Hne. cbv zeta.
  unfold str_format.
  rewrite <- (app_nil_r (style_template style)) at 1.
  rewrite (fmt_literal_brace_free _ _ _ _ Hbf). reflexivity.
Qed.

Lemma build_prompt_brace_free_template_witness :
  build_prompt odd_styles no_ext (u "red car") (Some (u "blank")) = Ok [].
Proof.
  rewrite (build_prompt_brace_free_template odd_styles no_ext (u "red car")
             (Some (u "blank")) {[ u "label" := u "Blank"; u "template" := u "   " ]}).
  - vm_compute. reflexivity.
  - vm_compute. reflexivity.
  - intros H. apply (f_equal (fun m => m !! u "label")) in H. vm_compute in H. discriminate.
  - vm_compute. reflexivity.
Defined.

(** X5: when the substitution raises, the final prompt still contains
    the trimmed user text. *)
Theorem build_prompt_fallback_contains
    (STYLE_MAP : gmap str (gmap str str)) (fe : str -> str -> ext str)
    (user_prompt : str) (style_key : option str) (style : gmap str str) (e : exn) :
  STYLE_MAP !! normalise_key style_key = Some style ->
  style <> ∅ ->
  str_format fe (style_template style) (strip user_prompt) = Raise e ->
  exists final,
    build_prompt STYLE_MAP fe user_prompt style_key = Ok final
    /\ contains final (strip user_prompt).
Proof.
  intros Hstyle Hne Hf. unfold build_prompt. rewrite Hstyle.
  rewrite bool_decide_eq_false_2 by exact Hne. cbv zeta. rewrite Hf. simpl.
  eexists. split; [reflexivity|].
  change (style_template style ++ LF :: LF :: user_prompt)
    with (style_template style ++ [LF; LF] ++ user_prompt).
  rewrite app_assoc. apply strip_app_contains.
Qed.

Lemma build_prompt_fallback_contains_witness :
  exists final,
    build_prompt odd_styles no_ext (u " red car ") (Some (u "subject")) = Ok final
    /\ contains final (strip (u " red car ")).
Proof.
  apply (build_prompt_fallback_contains odd_styles no_ext (u " red car ")
           (Some (u "subject")) {[ u "template" := u "Shot of {subject}" ]}
           (Exception (u "subject"))).
  - vm_compute. reflexivity.
  - intros H. apply (f_equal (fun m => m !! u "template")) in H. vm_compute in H.
    discriminate.
  - vm_compute. reflexivity.
Defined.

(** ** The helpers outside a request *)

(** X6: without a client in the context, both traced helpers raise the
    error of [_get_client] and call nothing. *)
Theorem helpers_need_client {Client : Type}
    (generate_content : Client -> str -> list Content ->
       option GenerateContentConfig -> ext GenerateContentResponse)
    (generate_content_stream : Client -> str -> Content -> GenerateContentConfig ->
       list GenerateContentResponse * option str)
    (model_name user_prompt style_key style_label style_desc : str)
    (has_image : bool) (ps : list Part) (st : ctx Client) :
  _current_client st = None ->
  refine_user_prompt Client generate_content model_name user_prompt style_key
    style_label style_desc has_image st = (Raise no_client_error, st)
  /\ generate_image_and_text Client generate_content_stream model_name ps st
     = (Raise no_client_error, st).
Proof.
  intros Hcli. split.
  - apply refine_run_unbound. exact Hcli.
  - unfold generate_image_and_text. run_M. rewrite Hcli. reflexivity.
Qed.

Lemma helpers_need_client_witness :
  fst (refine_user_prompt unit demo_text_model (u "text-model") (u "red car")
         (u "none") (u "none") [] false st0) = Raise no_client_error
  /\ calls (snd (generate_image_and_text unit (fun _ _ _ _ => demo_stream)
                   (u "text-model") [] st0)) = [].
Proof.
  destruct (helpers_need_client demo_text_model (fun _ _ _ _ => demo_stream)
              (u "text-model") (u "red car") (u "none") (u "none") [] false [] st0
              eq_refl) as [H1 H2].
  rewrite H1, H2. split; reflexivity.
Defined.

(** X7: what [refine_user_prompt] returns carries no leading or trailing
    whitespace. *)
Theorem refine_user_prompt_trimmed {Client : Type}
    (generate_content : Client -> str -> list Content ->
       option GenerateContentConfig -> ext GenerateContentResponse)
    (model_name user_prompt style_key style_label style_desc : str)
    (has_image : bool) (st : ctx Client) (refined : str) :
  fst (refine_user_prompt Client generate_content model_name user_prompt style_key
         style_label style_desc has_image st) = Ok refined ->
  strip refined = refined.
Proof.
  assert (Hs : forall resp, strip (extract_refined resp user_prompt)
                            = extract_refined resp user_prompt).
  { intros resp. unfold extract_refined. cbv zeta. apply strip_idemp. }
  destruct (_current_client st) as [client|] eqn:Hcli.
  - rewrite (refine_run generate_content model_name user_prompt style_key style_label
               style_desc has_image st client Hcli).
    destruct (generate_content client model_name _ (Some thinking_config)).
    + simpl. intros H. injection H as <-. apply Hs.
    + destruct (generate_content client model_name _ None); simpl; intros H;
        [injection H as <-; apply Hs | discriminate].
  - rewrite refine_run_unbound by exact Hcli. discriminate.
Qed.

Lemma refine_user_prompt_trimmed_witness :
  fst (refine_user_prompt unit demo_text_model (u "text-model") (u "red car")
         (u "none") (u "none") [] false st1) = Ok (u "A red car at dusk.")
  /\ strip (u "A red car at dusk.") = u "A red car at dusk.".
Proof.
  assert (H : fst (refine_user_prompt unit demo_text_model (u "text-model")
                     (u "red car") (u "none") (u "none") [] false st1)
              = Ok (u "A red car at dusk.")) by (vm_compute; reflexivity).
  split; [exact H|].
  exact (refine_user_prompt_trimmed demo_text_model (u "text-model") (u "red car")
           (u "none") (u "none") [] false st1 (u "A red car at dusk.") H).
Defined.

(** ** The records of the generator *)

Lemma list_ind3 {A : Type} (P : list A -> Prop) :
  P [] -> (forall a, P [a]) -> (forall a b, P [a; b]) ->
  (forall a b c l, P l -> P (a :: b :: c :: l)) ->
  forall l, P l.
Proof.
  intros H0 H1 H2 H3. fix IH 1.
  intros [|a [|b [|c l]]]; [exact H0 | apply H1 | apply H2 | apply H3, IH].
Qed.

(** The payload takes four characters for every three bytes, padded. *)
Lemma b64encode_length (bs : bytes) :
  (length (b64encode bs) = 4 * ((length bs + 2) / 3))%nat.
Proof.
  induction bs as [|a|a b|a b c l IH] using list_ind3; try reflexivity.
  cbn [b64encode length]. rewrite IH.
  replace (S (S (S (length l))) + 2)%nat with ((length l + 2) + 1 * 3)%nat by lia.
  rewrite Nat.div_add by discriminate. lia.
Qed.

Lemma b64encode_nonempty (b : byte) (d : bytes) : b64encode (b :: d) <> [].
Proof. destruct d as [|c [|e d]]; discriminate. Qed.

Lemma spec_image_well_formed (mime : option str) (b : byte) (d : bytes) :
  well_formed_image (spec_image mime (b :: d)).
Proof.
  unfold well_formed_image, spec_image. cbv zeta. cbn [img_mime_type img_base64 img_data_url].
  split; [destruct mime as [[|c m]|]; discriminate|].
  split; [apply b64encode_nonempty|].
  split; [|reflexivity].
  rewrite b64encode_length, Nat.mul_comm. apply Nat.Div0.mod_mul.
Qed.

Lemma chunk_fragment_well_formed (chunk : GenerateContentResponse) (img : image_record) :
  chunk_fragment chunk = Some (ImageFragment img) -> well_formed_image img.
Proof.
  unfold chunk_fragment. destruct (first_part chunk) as [p|]; [|discriminate].
  simpl. unfold fragment_of.
  destruct (text p) as [[|c t]|]; try discriminate;
    (destruct (inline_data p) as [blob|]; [|discriminate]; simpl;
     destruct (data blob) as [[|b d]|]; try discriminate;
     intros H; injection H as <-; apply spec_image_well_formed).
Qed.

Lemma images_of_well_formed (chunks : list GenerateContentResponse) :
  Forall well_formed_image (images_of (omap chunk_fragment chunks)).
Proof.
  induction chunks as [|chunk chunks IH]; [constructor|].
  cbn [omap list_omap].
  destruct (chunk_fragment chunk) as [[t|img]|] eqn:E; try exact IH.
  cbn [images_of omap list_omap]. constructor; [|exact IH].
  eapply chunk_fragment_well_formed. exact E.
Qed.

Lemma images_of_length (chunks : list GenerateContentResponse) :
  (length (images_of (omap chunk_fragment chunks)) <= length chunks)%nat.
Proof.
  induction chunks as [|chunk chunks IH]; [reflexivity|].
  cbn [omap list_omap length].
  destruct (chunk_fragment chunk) as [[t|img]|]; cbn [images_of omap list_omap length];
    fold (images_of (omap chunk_fragment chunks)); lia.
Qed.

(** X8: whatever the model streams, a result of
    [generate_image_and_text] has a trimmed text, and each of its images
    has a non-empty mime type, a non-empty base64 payload whose length is
    a multiple of four, and the data URL built from the two. *)
Theorem generate_image_and_text_well_formed {Client : Type}
    (generate_content_stream : Client -> str -> Content -> GenerateContentConfig ->
       list GenerateContentResponse * option str)
    (model_name : str) (ps : list Part) (st : ctx Client) (g : gen_result) :
  fst (generate_image_and_text Client generate_content_stream model_name ps st) = Ok g ->
  strip (out_text g) = out_text g
  /\ Forall well_formed_image (out_images g).
Proof.
  destruct (_current_client st) as [client|] eqn:Hcli.
  - rewrite (generate_image_and_text_run generate_content_stream model_name ps st
               client Hcli).
    cbv zeta.
    destruct (generate_content_stream client model_name _ image_text_config)
      as [chunks [msg|]]; simpl; [discriminate|].
    intros H. injection H as <-. simpl. split.
    + apply strip_idemp.
    + apply images_of_well_formed.
  - unfold generate_image_and_text. run_M. rewrite Hcli. discriminate.
Qed.

Lemma generate_image_and_text_well_formed_witness :
  exists g,
    fst (generate_image_and_text unit (fun _ _ _ _ => demo_stream) (u "image-model")
           [Part_from_text (u "red car")] st1) = Ok g
    /\ strip (out_text g) = out_text g
    /\ Forall well_formed_image (out_images g)
    /\ length (out_images g) = 1%nat.
Proof.
  eexists. split; [vm_compute; reflexivity|].
  split; [|split; [|reflexivity]];
    apply (generate_image_and_text_well_formed (Client := unit)
             (fun _ _ _ _ => demo_stream) (u "image-model")
             [Part_from_text (u "red car")] st1);
    vm_compute; reflexivity.
Defined.

(** ** The endpoint, whatever the context it starts from *)

Section Uniform.
Context {Client : Type}.

Lemma uniform_pure {A} (r : result A) :
  (forall e, r = Raise e -> benign e) ->
  uniform (fun st : ctx Client => (r, st)).
Proof.
  intros Hr cc. exists r, []. split; [exact Hr|].
  intros st _. rewrite logged_nil. reflexivity.
Qed.

Lemma uniform_ret {A} (a : A) : uniform (M_ret Client A a).
Proof. apply (uniform_pure (Ok a)). discriminate. Qed.

Lemma uniform_raise {A} (e : exn) :
  benign e -> uniform (raise (Client := Client) (A := A) e).
Proof. intros He. apply (uniform_pure (Raise e)). intros e' H. injection H as <-. exact He. Qed.

Lemma uniform_of_ext {A} (x : ext A) : uniform (lift (Client := Client) (of_ext x)).
Proof.
  apply (uniform_pure (of_ext x)). destruct x; simpl; intros e H;
    [discriminate | injection H as <-; exact I].
Qed.

Lemma uniform_emit (ev : event) : uniform (emit (Client := Client) ev).
Proof.
  intros cc. exists (Ok tt), [ev]. split; [discriminate|]. reflexivity.
Qed.

Lemma uniform_get_client : uniform (_get_client (Client := Client)).
Proof.
  intros [client|].
  - exists (Ok client), []. split; [discriminate|].
    intros st H. unfold _get_client. rewrite H, logged_nil. reflexivity.
  - exists (Raise no_client_error), []. split.
    + intros e H. injection H as <-. exact I.
    + intros st H. unfold _get_client. rewrite H, logged_nil. reflexivity.
Qed.

Lemma uniform_bind {A B} (m : M Client A) (f : A -> M Client B) :
  uniform m -> (forall a, uniform (f a)) -> uniform (M_bind Client A B f m).
Proof.
  intros Hm Hf cc. destruct (Hm cc) as [[a|e] [evs [Hr Hrun]]].
  - destruct (Hf a cc) as [r' [evs' [Hr' Hrun']]].
    exists r', (evs ++ evs'). split; [exact Hr'|].
    intros st Hst. unfold M_bind. rewrite (Hrun st Hst).
    rewrite (Hrun' (logged st evs)) by exact Hst. rewrite logged_logged. reflexivity.
  - exists (Raise e), evs. split.
    + intros e' H. injection H as <-. apply Hr. reflexivity.
    + intros st Hst. unfold M_bind. rewrite (Hrun st Hst). reflexivity.
Qed.

Lemma uniform_try_except {A} (body : M Client A) (handler : exn -> M Client A) :
  uniform body -> (forall e, uniform (handler e)) -> uniform (try_except body handler).
Proof.
  intros Hm Hh cc. destruct (Hm cc) as [[a|e] [evs [Hr Hrun]]].
  - exists (Ok a), evs. split; [discriminate|].
    intros st Hst. unfold try_except. rewrite (Hrun st Hst). reflexivity.
  - destruct (Hh e cc) as [r' [evs' [Hr' Hrun']]].
    exists r', (evs ++ evs'). split; [exact Hr'|].
    intros st Hst. unfold try_except. rewrite (Hrun st Hst).
    rewrite (Hrun' (logged st evs)) by exact Hst. rewrite logged_logged. reflexivity.
Qed.

Variable genai_Client : str -> ext Client.
Variable generate_content :
  Client -> str -> list Content -> option GenerateContentConfig ->
  ext GenerateContentResponse.
Variable generate_content_stream :
  Client -> str -> Content -> GenerateContentConfig ->
  list GenerateContentResponse * option str.
Variable STYLE_MAP : gmap str (gmap str str).
Variable format_extended : str -> str -> ext str.
Variables TEXT_MODEL_NAME IMAGE_MODEL_NAME : str.

Lemma uniform_models_generate_content client model contents config :
  uniform (models_generate_content Client generate_content client model contents config).
Proof.
  unfold models_generate_content.
  apply uniform_bind; [apply uniform_emit | intros _; apply uniform_of_ext].
Qed.

Lemma uniform_refine model_name user_prompt style_key style_label style_desc has_image :
  uniform (refine_user_prompt Client generate_content model_name user_prompt
             style_key style_label style_desc has_image).
Proof.
  unfold refine_user_prompt.
  apply uniform_bind; [apply uniform_get_client|]. intros client.
  apply uniform_bind; [|intros resp; apply uniform_ret].
  apply uniform_try_except; [|intros _]; apply uniform_models_generate_content.
Qed.

Lemma uniform_generate_image_and_text model_name ps :
  uniform (generate_image_and_text Client generate_content_stream model_name ps).
Proof.
  unfold generate_image_and_text.
  apply uniform_bind; [apply uniform_get_client|]. intros client.
  apply uniform_bind; [apply uniform_emit|]. intros _.
  destruct (generate_content_stream client model_name _ image_text_config)
    as [chunks failure].
  destruct (fold_left loop_body chunks ([], [])) as [text_out images_out].
  destruct failure; [apply uniform_raise; exact I | apply uniform_ret].
Qed.

Lemma uniform_image_parts image : uniform (image_parts Client image).
Proof.
  unfold image_parts.
  destruct image as [img|]; [|apply uniform_ret]. cbv zeta.
  destruct (negb (startswith _ _)); [apply uniform_raise; reflexivity|].
  apply uniform_bind.
  - unfold image_read.
    apply uniform_bind; [apply uniform_emit | intros _; apply uniform_of_ext].
  - intros [|b d]; [apply uniform_raise; reflexivity|].
    destruct (_ >? _)%Z; [apply uniform_raise; reflexivity | apply uniform_ret].
Qed.

Lemma uniform_generate_body prompt image style :
  uniform (generate_body Client generate_content generate_content_stream
             STYLE_MAP format_extended TEXT_MODEL_NAME IMAGE_MODEL_NAME
             prompt image style).
Proof.
  unfold generate_body. cbv zeta.
  apply uniform_bind; [apply uniform_refine|]. intros refined.
  apply uniform_bind.
  { destruct (build_prompt_returns STYLE_MAP format_extended refined
                (Some (strip (opt_or style (u "none"))))) as [final Hfinal].
    unfold lift. rewrite Hfinal. apply (uniform_pure (Ok final)). discriminate. }
  intros final_prompt.
  apply uniform_bind; [apply uniform_image_parts|]. intros ps.
  apply uniform_bind; [apply uniform_generate_image_and_text|].
  intros g. apply uniform_ret.
Qed.

Local Abbreviation run_generate :=
  (generate Client genai_Client generate_content generate_content_stream
     STYLE_MAP format_extended TEXT_MODEL_NAME IMAGE_MODEL_NAME).

(** One result and one list of calls for a request, from every context. *)
Lemma generate_uniform prompt image style api_key :
  exists res evs,
    (forall e, res = Raise e -> http_400_or_500 e)
    /\ forall st : ctx Client,
         run_generate prompt image style api_key st = (res, logged st evs).
Proof.
  destruct (blank api_key) eqn:Hk.
  { exists (Raise (HTTPException 400 (u "api_key is required"))), []. split.
    - intros e H. injection H as <-. eexists. left. reflexivity.
    - intros st. rewrite logged_nil. apply generate_blank_key. exact Hk. }
  destruct (blank prompt) eqn:Hp.
  { exists (Raise (HTTPException 400 (u "prompt is required"))), []. split.
    - intros e H. injection H as <-. eexists. left. reflexivity.
    - intros st. rewrite logged_nil. apply generate_blank_prompt; assumption. }
  destruct (genai_Client (strip api_key)) as [client|msg] eqn:Hc.
  - destruct (uniform_generate_body prompt image style (Some client))
      as [r [evs [Hr Hrun]]].
    exists (match r with
            | Ok a => Ok a
            | Raise (HTTPException code detail) => Raise (HTTPException code detail)
            | Raise (Exception msg) =>
                Raise (HTTPException 500 (u "Generation failed: " ++ msg))
            end),
      (CallClient (strip api_key) :: CtxSet :: evs ++ [CtxReset]).
    split.
    + destruct r as [a|[code detail|msg]]; intros e H; try discriminate;
        injection H as <-.
      * specialize (Hr _ eq_refl). simpl in Hr. subst code.
        eexists. left. reflexivity.
      * eexists. right. reflexivity.
    + intros st.
      rewrite (generate_run genai_Client generate_content generate_content_stream
                 STYLE_MAP format_extended TEXT_MODEL_NAME IMAGE_MODEL_NAME
                 prompt image style api_key st client Hk Hp Hc).
      cbv zeta. rewrite Hrun by reflexivity.
      f_equal. unfold logged. simpl. rewrite <- !app_assoc. reflexivity.
  - exists (Raise (HTTPException 400 (u "Invalid api_key provided"))),
      [CallClient (strip api_key)]. split.
    + intros e H. injection H as <-. eexists. left. reflexivity.
    + intros st. eapply generate_bad_client; eassumption.
Qed.


(** X10: a request is served the same from every context: its result and
    the calls it makes depend neither on the client that was bound when it
    arrived nor on what was called before, and the context is handed back
    with the earlier binding. *)
Theorem generate_ignores_ambient_context (prompt : str) (image : option UploadFile)
    (style : option str) (api_key : str) :
  exists res evs,
    forall st : ctx Client,
      run_generate prompt image style api_key st = (res, logged st evs).
Proof.
  destruct (generate_uniform prompt image style api_key) as [res [evs [_ Hrun]]].
  exists res, evs. exact Hrun.
Qed.
End Uniform.


(** ** The endpoint, path by path *)

Section Paths.
Context {Client : Type}.
Variable genai_Client : str -> ext Client.
Variable generate_content :
  Client -> str -> list Content -> option GenerateContentConfig ->
  ext GenerateContentResponse.
Variable generate_content_stream :
  Client -> str -> Content -> GenerateContentConfig ->
  list GenerateContentResponse * option str.
Variable STYLE_MAP : gmap str (gmap str str).
Variable format_extended : str -> str -> ext str.
Variables TEXT_MODEL_NAME IMAGE_MODEL_NAME : str.

Local Abbreviation run_generate :=
  (generate Client genai_Client generate_content generate_content_stream
     STYLE_MAP format_extended TEXT_MODEL_NAME IMAGE_MODEL_NAME).
Local Abbreviation run_body :=
  (generate_body Client generate_content generate_content_stream
     STYLE_MAP format_extended TEXT_MODEL_NAME IMAGE_MODEL_NAME).

(** The context in which the body runs. *)
Local Abbreviation bound_ctx st client api_key :=
  {| _current_client := Some client;
     calls := calls st ++ [CallClient (strip api_key); CtxSet] |}.

(** The contents the endpoint sends to the text model. *)
Local Abbreviation endpoint_contents prompt image style :=
  (refine_contents prompt
     (style_label_of STYLE_MAP (strip (opt_or style (u "none"))))
     (style_desc_of STYLE_MAP (strip (opt_or style (u "none"))))
     (has_upload image)).

Lemma refine_run_answers model_name user_prompt style_key style_label style_desc
    has_image (st : ctx Client) client resp revs :
  _current_client st = Some client ->
  refine_answers generate_content client model_name
    (refine_contents user_prompt style_label style_desc has_image) resp revs ->
  refine_user_prompt Client generate_content model_name user_prompt style_key
    style_label style_desc has_image st
  = (Ok (extract_refined resp user_prompt), logged st revs).
Proof.
  intros Hcli Hans.
  rewrite (refine_run generate_content model_name user_prompt style_key style_label
             style_desc has_image st client Hcli).
  destruct Hans as [[H1 ->] | [msg [H1 [H2 ->]]]]; rewrite H1; [|rewrite H2];
    reflexivity.
Qed.

Lemma image_parts_accepted image ps evs (st : ctx Client) :
  accepted_upload image ps evs ->
  image_parts Client image st = (Ok ps, logged st evs).
Proof.
  unfold accepted_upload, image_parts. destruct image as [img|].
  - cbv zeta. intros [Hmime [d [Hread [Hd [Hlen [-> ->]]]]]].
    rewrite Hmime. simpl negb. run_M. rewrite Hread.
    destruct d as [|b d]; [contradiction|].
    destruct (Z.gtb_spec (Z.of_nat (length (b :: d))) MAX_IMAGE_BYTES) as [Hgt|_];
      [lia | reflexivity].
  - intros [-> ->]. rewrite logged_nil. reflexivity.
Qed.

Lemma image_parts_read_failure img msg (st : ctx Client) :
  startswith (opt_or (content_type img) []) (u "image/") = true ->
  read img = Fails msg ->
  image_parts Client (Some img) st = (Raise (Exception msg), logged st [CallRead]).
Proof.
  intros Hmime Hread. unfold image_parts. cbv zeta.
  rewrite Hmime. simpl negb. run_M. rewrite Hread. reflexivity.
Qed.

(** The body after the refiner was answered: the upload, then the
    generator on the upload and the final prompt. *)
Lemma generate_body_answered prompt image style (st : ctx Client) client resp revs final :
  _current_client st = Some client ->
  refine_answers generate_content client TEXT_MODEL_NAME
    (endpoint_contents prompt image style) resp revs ->
  build_prompt STYLE_MAP format_extended (extract_refined resp prompt)
    (Some (strip (opt_or style (u "none")))) = Ok final ->
  run_body prompt image style st =
  M_bind Client _ _
    (fun ps =>
       M_bind Client _ _
         (fun g => M_ret Client _ {| out_text := out_text g; out_images := out_images g |})
         (generate_image_and_text Client generate_content_stream IMAGE_MODEL_NAME
            (ps ++ [Part_from_text final])))
    (image_parts Client image) (logged st revs).
Proof.
  intros Hcli Hans Hfinal. unfold generate_body. cbv zeta. unfold mbind.
  rewrite M_bind_run.
  rewrite (refine_run_answers _ _ _ _ _ _ st client resp revs Hcli Hans).
  rewrite M_bind_run. unfold lift. rewrite Hfinal. reflexivity.
Qed.

(** X11: the request that goes through.  With a credential and a prompt
    that are not blank, a client that could be built, a refiner that was
    answered and no upload or an accepted one, the image model is called
    once, with the upload (if any) and then the final prompt, and when its
    stream ends without an error the endpoint returns what the stream
    carried; the calls are, in order: client, bind, text model, read (if
    any), image model, reset. *)
Theorem generate_success (prompt : str) (image : option UploadFile)
    (style : option str) (api_key : str) (st : ctx Client) (client : Client)
    (resp : GenerateContentResponse) (revs ievs : list event) (ps : list Part)
    (final : str) (chunks : list GenerateContentResponse) :
  strip api_key <> [] ->
  strip prompt <> [] ->
  genai_Client (strip api_key) = Returns client ->
  refine_answers generate_content client TEXT_MODEL_NAME
    (endpoint_contents prompt image style) resp revs ->
  build_prompt STYLE_MAP format_extended (extract_refined resp prompt)
    (Some (strip (opt_or style (u "none")))) = Ok final ->
  accepted_upload image ps ievs ->
  let request := {| role := Some (u "user");
                    parts := Some (ps ++ [Part_from_text final]) |} in
  generate_content_stream client IMAGE_MODEL_NAME request image_text_config
  = (chunks, None) ->
  let fs := omap chunk_fragment chunks in
  run_generate prompt image style api_key st
  = (Ok {| out_text := strip (concat (texts_of fs)); out_images := images_of fs |},
     logged st
       (CallClient (strip api_key) :: CtxSet :: revs ++ ievs ++
        [CallGenerateContentStream IMAGE_MODEL_NAME request image_text_config;
         CtxReset])).
Proof.
  intros Hkey Hprompt Hclient Hans Hfinal Hup request Hstream fs.
  rewrite (generate_run genai_Client generate_content generate_content_stream
             STYLE_MAP format_extended TEXT_MODEL_NAME IMAGE_MODEL_NAME
             prompt image style api_key st client
             (blank_false _ Hkey) (blank_false _ Hprompt) Hclient).
  cbv zeta.
  rewrite (generate_body_answered prompt image style (bound_ctx st client api_key)
             client resp revs final eq_refl Hans Hfinal).
  rewrite M_bind_run, (image_parts_accepted image ps ievs _ Hup), M_bind_run.
  rewrite (generate_image_and_text_run generate_content_stream IMAGE_MODEL_NAME
             (ps ++ [Part_from_text final])
             (logged (logged (bound_ctx st client api_key) revs) ievs) client eq_refl).
  cbv zeta. fold request. rewrite Hstream. simpl fst. simpl snd. cbv iota.
  unfold M_ret. f_equal. unfold logged. simpl. rewrite <- !app_assoc. reflexivity.
Qed.

(** X12: a stream that breaks makes the request fail with a 500 that
    carries the error, whatever was streamed before; the context is reset
    all the same. *)
Theorem generate_stream_failure (prompt : str) (image : option UploadFile)
    (style : option str) (api_key : str) (st : ctx Client) (client : Client)
    (resp : GenerateContentResponse) (revs ievs : list event) (ps : list Part)
    (final : str) (chunks : list GenerateContentResponse) (msg : str) :
  strip api_key <> [] ->
  strip prompt <> [] ->
  genai_Client (strip api_key) = Returns client ->
  refine_answers generate_content client TEXT_MODEL_NAME
    (endpoint_contents prompt image style) resp revs ->
  build_prompt STYLE_MAP format_extended (extract_refined resp prompt)
    (Some (strip (opt_or style (u "none")))) = Ok final ->
  accepted_upload image ps ievs ->
  let request := {| role := Some (u "user");
                    parts := Some (ps ++ [Part_from_text final]) |} in
  generate_content_stream client IMAGE_MODEL_NAME request image_text_config
  = (chunks, Some msg) ->
  run_generate prompt image style api_key st
  = (Raise (HTTPException 500 (u "Generation failed: " ++ msg)),
     logged st
       (CallClient (strip api_key) :: CtxSet :: revs ++ ievs ++
        [CallGenerateContentStream IMAGE_MODEL_NAME request image_text_config;
         CtxReset])).
Proof.
  intros Hkey Hprompt Hclient Hans Hfinal Hup request Hstream.
  rewrite (generate_run genai_Client generate_content generate_content_stream
             STYLE_MAP format_extended TEXT_MODEL_NAME IMAGE_MODEL_NAME
             prompt image style api_key st client
             (blank_false _ Hkey) (blank_false _ Hprompt) Hclient).
  cbv zeta.
  rewrite (generate_body_answered prompt image style (bound_ctx st client api_key)
             client resp revs final eq_refl Hans Hfinal).
  rewrite M_bind_run, (image_parts_accepted image ps ievs _ Hup), M_bind_run.
  rewrite (generate_image_and_text_run generate_content_stream IMAGE_MODEL_NAME
             (ps ++ [Part_from_text final])
             (logged (logged (bound_ctx st client api_key) revs) ievs) client eq_refl).
  cbv zeta. fold request. rewrite Hstream. simpl fst. simpl snd. cbv iota.
  f_equal. unfold logged. simpl. rewrite <- !app_assoc. reflexivity.
Qed.

(** X13: an upload of an image type whose read fails makes the request
    fail with a 500 that carries the error, and the image model is not
    called. *)
Theorem generate_read_failure (prompt : str) (img : UploadFile)
    (style : option str) (api_key : str) (st : ctx Client) (client : Client)
    (resp : GenerateContentResponse) (revs : list event) (msg : str) :
  strip api_key <> [] ->
  strip prompt <> [] ->
  genai_Client (strip api_key) = Returns client ->
  refine_answers generate_content client TEXT_MODEL_NAME
    (endpoint_contents prompt (Some img) style) resp revs ->
  startswith (opt_or (content_type img) []) (u "image/") = true ->
  read img = Fails msg ->
  run_generate prompt (Some img) style api_key st
  = (Raise (HTTPException 500 (u "Generation failed: " ++ msg)),
     logged st
       (CallClient (strip api_key) :: CtxSet :: revs ++ [CallRead; CtxReset])).
Proof.
  intros Hkey Hprompt Hclient Hans Hmime Hread.
  destruct (build_prompt_returns STYLE_MAP format_extended (extract_refined resp prompt)
              (Some (strip (opt_or style (u "none"))))) as [final Hfinal].
  rewrite (generate_run genai_Client generate_content generate_content_stream
             STYLE_MAP format_extended TEXT_MODEL_NAME IMAGE_MODEL_NAME
             prompt (Some img) style api_key st client
             (blank_false _ Hkey) (blank_false _ Hprompt) Hclient).
  cbv zeta.
  rewrite (generate_body_answered prompt (Some img) style
             (bound_ctx st client api_key) client resp revs final eq_refl Hans Hfinal).
  rewrite M_bind_run, (image_parts_read_failure img msg _ Hmime Hread).
  f_equal. unfold logged. simpl. rewrite <- !app_assoc. reflexivity.
Qed.

(** X14: when the text model fails at both attempts the request fails
    with a 500 that carries the second error; the upload is not read and
    the image model is not called. *)
Theorem generate_refiner_failure (prompt : str) (image : option UploadFile)
    (style : option str) (api_key : str) (st : ctx Client) (client : Client)
    (msg1 msg2 : str) :
  strip api_key <> [] ->
  strip prompt <> [] ->
  genai_Client (strip api_key) = Returns client ->
  let contents := endpoint_contents prompt image style in
  generate_content client TEXT_MODEL_NAME contents (Some thinking_config) = Fails msg1 ->
  generate_content client TEXT_MODEL_NAME contents None = Fails msg2 ->
  run_generate prompt image style api_key st
  = (Raise (HTTPException 500 (u "Generation failed: " ++ msg2)),
     logged st
       [CallClient (strip api_key); CtxSet;
        CallGenerateContent TEXT_MODEL_NAME contents (Some thinking_config);
        CallGenerateContent TEXT_MODEL_NAME contents None;
        CtxReset]).
Proof.
  intros Hkey Hprompt Hclient contents H1 H2.
  rewrite (generate_run genai_Client generate_content generate_content_stream
             STYLE_MAP format_extended TEXT_MODEL_NAME IMAGE_MODEL_NAME
             prompt image style api_key st client
             (blank_false _ Hkey) (blank_false _ Hprompt) Hclient).
  cbv zeta. unfold generate_body. cbv zeta. unfold mbind. rewrite M_bind_run.
  rewrite (refine_run generate_content TEXT_MODEL_NAME prompt _ _ _ _
             (bound_ctx st client api_key) client eq_refl).
  fold (has_upload image). fold contents. rewrite H1, H2.
  f_equal. unfold logged. simpl. rewrite <- !app_assoc. reflexivity.
Qed.

(** X15: the credential is checked before the prompt.  A credential of
    blanks only is refused as missing whatever the prompt is; with a
    credential given, a prompt of blanks only is refused as missing; in
    both cases nothing is called. *)
Theorem generate_blank_precedence (prompt : str) (image : option UploadFile)
    (style : option str) (api_key : str) (st : ctx Client) :
  (forallb isspace api_key = true ->
   run_generate prompt image style api_key st
   = (Raise (HTTPException 400 (u "api_key is required")), st))
  /\ (forallb isspace api_key = false -> forallb isspace prompt = true ->
      run_generate prompt image style api_key st
      = (Raise (HTTPException 400 (u "prompt is required")), st)).
Proof.
  split.
  - intros Hk. apply generate_blank_key, blank_spec, strip_all_space. exact Hk.
  - intros Hk Hp. apply generate_blank_prompt.
    + apply blank_false. intros H. apply strip_all_space in H. congruence.
    + apply blank_spec, strip_all_space. exact Hp.
Qed.
End Paths.

Lemma generate_success_witness :
  fst (demo_generate (u "red car") (Some jpeg_upload) (Some (u "studio")) (u " key ") st0)
  = Ok {| out_text := u "Here is your car.";
          out_images := [ {| img_mime_type := u "image/jpeg";
                             img_base64 := u "TWFu";
                             img_data_url := u "data:image/jpeg;base64,TWFu" |} ] |}.
Proof.
  unfold demo_generate.
  rewrite (generate_success (fun _ => Returns tt) demo_text_model
             (fun _ _ _ _ => demo_stream) demo_styles no_ext
             (u "text-model") (u "image-model")
             (u "red car") (Some jpeg_upload) (Some (u "studio")) (u " key ") st0 tt
             (text_response (u " A red car at dusk. ")) (demo_revs true) [CallRead]
             [Part_from_bytes [x4d; x61; x6e] (u "image/jpeg")]
             (u "Studio shot. A red car at dusk. Soft light.") (fst demo_stream)).
  - vm_compute. reflexivity.
  - vm_compute. discriminate.
  - vm_compute. discriminate.
  - reflexivity.
  - right. exists (u "thinking is not supported"). repeat split.
  - vm_compute. reflexivity.
  - split; [vm_compute; reflexivity|].
    exists [x4d; x61; x6e]. repeat split; [discriminate | vm_compute; discriminate].
  - reflexivity.
Defined.

Lemma generate_stream_failure_witness :
  fst (demo_generate_broken_stream (u "red car") None (Some (u "studio")) (u "key") st0)
  = Raise (HTTPException 500 (u "Generation failed: stream reset")).
Proof.
  unfold demo_generate_broken_stream.
  rewrite (generate_stream_failure (fun _ => Returns tt) demo_text_model
             (fun _ _ _ _ => broken_stream) demo_styles no_ext
             (u "text-model") (u "image-model")
             (u "red car") None (Some (u "studio")) (u "key") st0 tt
             (text_response (u " A red car at dusk. ")) (demo_revs false) [] []
             (u "Studio shot. A red car at dusk. Soft light.") (fst broken_stream)
             (u "stream reset")).
  - reflexivity.
  - vm_compute. discriminate.
  - vm_compute. discriminate.
  - reflexivity.
  - right. exists (u "thinking is not supported"). repeat split.
  - vm_compute. reflexivity.
  - split; reflexivity.
  - reflexivity.
Defined.

Lemma generate_read_failure_witness :
  fst (demo_generate (u "red car") (Some broken_upload) (Some (u "studio")) (u "key") st0)
  = Raise (HTTPException 500 (u "Generation failed: connection lost")).
Proof.
  unfold demo_generate.
  rewrite (generate_read_failure (fun _ => Returns tt) demo_text_model
             (fun _ _ _ _ => demo_stream) demo_styles no_ext
             (u "text-model") (u "image-model")
             (u "red car") broken_upload (Some (u "studio")) (u "key") st0 tt
             (text_response (u " A red car at dusk. ")) (demo_revs true)
             (u "connection lost")).
  - reflexivity.
  - vm_compute. discriminate.
  - vm_compute. discriminate.
  - reflexivity.
  - right. exists (u "thinking is not supported"). repeat split.
  - vm_compute. reflexivity.
  - reflexivity.
Defined.

Lemma generate_refiner_failure_witness :
  fst (demo_generate_out_of_quota (u "red car") (Some jpeg_upload) None (u "key") st0)
  = Raise (HTTPException 500 (u "Generation failed: quota exceeded")).
Proof.
  unfold demo_generate_out_of_quota.
  rewrite (generate_refiner_failure (fun _ => Returns tt) failing_text_model
             (fun _ _ _ _ => demo_stream) demo_styles no_ext
             (u "text-model") (u "image-model")
             (u "red car") (Some jpeg_upload) None (u "key") st0 tt
             (u "quota exceeded") (u "quota exceeded")).
  - reflexivity.
  - vm_compute. discriminate.
  - vm_compute. discriminate.
  - reflexivity.
  - reflexivity.
  - reflexivity.
Defined.

Lemma generate_blank_precedence_witness :
  demo_generate [] None None (u "   ") st0
  = (Raise (HTTPException 400 (u "api_key is required")), st0)
  /\ demo_generate (u "  ") None None (u "key") st0
     = (Raise (HTTPException 400 (u "prompt is required")), st0).
Proof.
  split.
  - apply (generate_blank_precedence (fun _ => Returns tt) demo_text_model
             (fun _ _ _ _ => demo_stream) demo_styles no_ext
             (u "text-model") (u "image-model") [] None None (u "   ") st0).
    vm_compute. reflexivity.
  - apply (generate_blank_precedence (fun _ => Returns tt) demo_text_model
             (fun _ _ _ _ => demo_stream) demo_styles no_ext
             (u "text-model") (u "image-model") (u "  ") None None (u "key") st0).
    + vm_compute. reflexivity.
    + vm_compute. reflexivity.
Defined.

(** ** What makes [build_prompt] fall back *)

Lemma fmt_kind_independent (a b : str) (n : nat) :
  forall t, (length t <= n)%nat ->
    (forall out out', kind_of (fmt_literal a t out) = kind_of (fmt_literal b t out'))
    /\ (forall name out out',
          kind_of (fmt_field a t name out) = kind_of (fmt_field b t name out')).
Proof.
  induction n as [|n IH]; intros t Hlen.
  - destruct t; [|simpl in Hlen; lia]. split; reflexivity.
  - destruct t as [|c t]; [split; reflexivity|].
    simpl in Hlen. assert (Ht : (length t <= n)%nat) by lia.
    destruct (IH t Ht) as [IHl IHf]. split.
    + intros out out'. cbn [fmt_literal].
      destruct (c =? lbrace).
      * destruct t as [|c' t']; [reflexivity|].
        destruct (c' =? lbrace); [|apply IHf].
        apply IH. simpl in Ht. lia.
      * destruct (c =? rbrace); [|apply IHl].
        destruct t as [|c' t']; [reflexivity|].
        destruct (c' =? rbrace); [|reflexivity].
        apply IH. simpl in Ht. lia.
    + intros name out out'. cbn [fmt_field].
      destruct (c =? rbrace).
      * destruct (bool_decide (name = u "user_prompt")); [apply IHl | reflexivity].
      * destruct (c =? lbrace); [reflexivity|].
        destruct (field_is_extended c); [reflexivity | apply IHf].
Qed.

(** X16: on a template that uses no conversion, format specification,
    attribute or index, the user's text has no part in whether the
    substitution raises: if [build_prompt] formats one text through the
    template it formats every text, braces in the text included. *)
Theorem str_format_failure_independent_of_text (fe : str -> str -> ext str)
    (template text text' : str) (s : str) :
  kind_of (fmt_literal text template []) <> KExtended ->
  str_format fe template text = Ok s ->
  exists s', str_format fe template text' = Ok s'.
Proof.
  intros Hk Hs. unfold str_format in *.
  destruct (fmt_kind_independent text text' (length template) template (le_n _))
    as [H _].
  specialize (H [] []).
  destruct (fmt_literal text template []) as [r|msg|]; simpl in *;
    [|discriminate|contradiction].
  destruct (fmt_literal text' template []) as [r'|msg'|]; try discriminate.
  eauto.
Qed.

Lemma str_format_failure_independent_of_text_witness :
  exists s',
    str_format no_ext (u "Studio shot. {user_prompt} Soft light.") (u "a {b} } c") = Ok s'.
Proof.
  apply (str_format_failure_independent_of_text no_ext
           (u "Studio shot. {user_prompt} Soft light.") (u "red car") (u "a {b} } c")
           (u "Studio shot. red car Soft light.")).
  - vm_compute. discriminate.
  - vm_compute. reflexivity.
Defined.

(** ** The style key between the refiner and [build_prompt] *)

(** X17: the endpoint hands its trimmed style key to [build_prompt],
    which normalises it again.  The key comes out as it went in, so both
    steps look at the same style, unless the endpoint's key is empty (a
    style of blanks): then [build_prompt] looks up "none". *)
Theorem endpoint_style_key_renormalised (style : option str) :
  let style_key := strip (opt_or style (u "none")) in
  (style_key <> [] -> normalise_key (Some style_key) = style_key)
  /\ (style_key = [] -> normalise_key (Some style_key) = u "none").
Proof.
  cbv zeta. split.
  - intros Hne. unfold normalise_key. cbn [opt_or]. unfold str_or.
    destruct (strip (opt_or style (u "none"))) eqn:E; [contradiction|].
    simpl truthy. rewrite <- E. apply strip_idemp.
  - intros ->. reflexivity.
Qed.

Lemma blank_style_key_witness :
  strip (opt_or (Some (u "  ")) (u "none")) = []
  /\ normalise_key (Some (strip (opt_or (Some (u "  ")) (u "none")))) = u "none".
Proof.
  split; [vm_compute; reflexivity|].
  apply (endpoint_style_key_renormalised (Some (u "  "))). vm_compute. reflexivity.
Defined.

(** ** The three refusals of an upload *)

Section Refusals.
Context {Client : Type}.
Variable genai_Client : str -> ext Client.
Variable generate_content :
  Client -> str -> list Content -> option GenerateContentConfig ->
  ext GenerateContentResponse.
Variable generate_content_stream :
  Client -> str -> Content -> GenerateContentConfig ->
  list GenerateContentResponse * option str.
Variable STYLE_MAP : gmap str (gmap str str).
Variable format_extended : str -> str -> ext str.
Variables TEXT_MODEL_NAME IMAGE_MODEL_NAME : str.

Local Abbreviation run_generate :=
  (generate Client genai_Client generate_content generate_content_stream
     STYLE_MAP format_extended TEXT_MODEL_NAME IMAGE_MODEL_NAME).

(** X18: once the refiner was answered, an upload is refused with a
    400 whose detail names the reason: a declared type outside image/*
    (the payload is then not read), an empty payload, a payload of more
    than [MAX_IMAGE_BYTES] bytes.  The image model is not called. *)
Theorem generate_upload_refusals (prompt : str) (img : UploadFile)
    (style : option str) (api_key : str) (st : ctx Client) (client : Client)
    (resp : GenerateContentResponse) (revs : list event) :
  strip api_key <> [] ->
  strip prompt <> [] ->
  genai_Client (strip api_key) = Returns client ->
  refine_answers generate_content client TEXT_MODEL_NAME
    (refine_contents prompt
       (style_label_of STYLE_MAP (strip (opt_or style (u "none"))))
       (style_desc_of STYLE_MAP (strip (opt_or style (u "none")))) true)
    resp revs ->
  let is_image := startswith (opt_or (content_type img) []) (u "image/") in
  let refused detail ievs :=
    run_generate prompt (Some img) style api_key st
    = (Raise (HTTPException 400 detail),
       logged st (CallClient (strip api_key) :: CtxSet :: revs ++ ievs ++ [CtxReset])) in
  (is_image = false -> refused (u "image must be of type image/*") [])
  /\ (is_image = true -> read img = Returns [] ->
      refused (u "image file is empty") [CallRead])
  /\ (is_image = true -> forall d, read img = Returns d ->
      (Z.of_nat (length d) > MAX_IMAGE_BYTES)%Z ->
      refused (u "image too large (>7MB)") [CallRead]).
Proof.
  intros Hkey Hprompt Hclient Hans is_image refused.
  destruct (build_prompt_returns STYLE_MAP format_extended (extract_refined resp prompt)
              (Some (strip (opt_or style (u "none"))))) as [final Hfinal].
  assert (Hrun : forall detail ievs,
    image_parts Client (Some img)
      (logged {| _current_client := Some client;
                 calls := calls st ++ [CallClient (strip api_key); CtxSet] |} revs)
    = (Raise (HTTPException 400 detail),
       logged (logged {| _current_client := Some client;
                         calls := calls st ++ [CallClient (strip api_key); CtxSet] |}
                 revs) ievs) ->
    refused detail ievs).
  { intros detail ievs Himg. unfold refused.
    rewrite (generate_run genai_Client generate_content generate_content_stream
               STYLE_MAP format_extended TEXT_MODEL_NAME IMAGE_MODEL_NAME
               prompt (Some img) style api_key st client
               (blank_false _ Hkey) (blank_false _ Hprompt) Hclient).
    cbv zeta.
    rewrite (generate_body_answered generate_content generate_content_stream
               STYLE_MAP format_extended TEXT_MODEL_NAME IMAGE_MODEL_NAME
               prompt (Some img) style
               {| _current_client := Some client;
                  calls := calls st ++ [CallClient (strip api_key); CtxSet] |}
               client resp revs final eq_refl Hans Hfinal).
    rewrite M_bind_run, Himg.
    f_equal. unfold logged. simpl. rewrite <- !app_assoc. reflexivity. }
  split; [|split].
  - intros Hmime. apply Hrun. unfold image_parts. cbv zeta.
    fold is_image. rewrite Hmime. simpl negb. cbv iota.
    unfold raise. rewrite logged_nil. reflexivity.
  - intros Hmime Hread. apply Hrun. unfold image_parts. cbv zeta.
    fold is_image. rewrite Hmime. simpl negb. run_M. rewrite Hread. reflexivity.
  - intros Hmime d Hread Hlen. apply Hrun. unfold image_parts. cbv zeta.
    fold is_image. rewrite Hmime. simpl negb. run_M. rewrite Hread.
    destruct d as [|b d]; [simpl in Hlen; unfold MAX_IMAGE_BYTES in Hlen; lia|].
    apply Z.gtb_gt in Hlen. rewrite Hlen. reflexivity.
Qed.
End Refusals.

Lemma generate_upload_refusals_witness :
  fst (demo_generate (u "red car") (Some text_upload) (Some (u "studio")) (u "key") st0)
  = Raise (HTTPException 400 (u "image must be of type image/*"))
  /\ fst (demo_generate (u "red car") (Some empty_upload) (Some (u "studio")) (u "key") st0)
     = Raise (HTTPException 400 (u "image file is empty")).
Proof.
  split.
  - destruct (generate_upload_refusals (fun _ => Returns tt) demo_text_model
                (fun _ _ _ _ => demo_stream) demo_styles no_ext
                (u "text-model") (u "image-model")
                (u "red car") text_upload (Some (u "studio")) (u "key") st0 tt
                (text_response (u " A red car at dusk. ")) (demo_revs true))
      as [H _].
    + vm_compute. discriminate.
    + vm_compute. discriminate.
    + reflexivity.
    + right. exists (u "thinking is not supported"). repeat split.
    + unfold demo_generate. rewrite H; [reflexivity | vm_compute; reflexivity].
  - destruct (generate_upload_refusals (fun _ => Returns tt) demo_text_model
                (fun _ _ _ _ => demo_stream) demo_styles no_ext
                (u "text-model") (u "image-model")
                (u "red car") empty_upload (Some (u "studio")) (u "key") st0 tt
                (text_response (u " A red car at dusk. ")) (demo_revs true))
      as [_ [H _]].
    + vm_compute. discriminate.
    + vm_compute. discriminate.
    + reflexivity.
    + right. exists (u "thinking is not supported"). repeat split.
    + unfold demo_generate. rewrite H; [reflexivity | vm_compute; reflexivity | reflexivity].
Defined.
